(** * Book catalogue: the REST back end of [server.js], embedded and verified

    The development follows [server.js] top to bottom: the helpers
    ([readBooks], [writeBooks], [generateId], [validateBook]) and then one
    definition per route handler.

    Modelling choices.
    - A request body is the record [BookData.t]: every field is optional
      ([None] is an absent or [null] field) and, when present, has the type
      the data model gives it (strings, an integer [year]).
    - A string is a sequence of code units below 256 (Latin-1); the
      white-space class and the case mapping are ECMAScript's on that range.
    - A number is an integer ([Z]); ids and years stay far below 2^53.
    - A time stamp ([createdAt], [updatedAt]) is the instant in
      milliseconds that its ISO 8601 text denotes.
    - The outside world ([World]) is the backing file, whether it can be
      written, the log of the writes and a clock; an [async] function is a
      state transformer that returns a value or throws.
    - [validateBook] takes the current year as an argument; a handler takes
      one reading of the clock for it before it validates.
    - The handlers read [title] and [author] of a body only after
      [validateBook] accepted it, when both are present ([str]).
    - Of the page's class [BookCatalogue] the embedding keeps the data
      ([books], [currentEditId]) and what each method does to it or hands
      to [displayBooks]; rendering is left out. *)

From Stdlib Require Import ZArith Ascii String DecimalString DecimalPos DecimalN.
From stdpp Require Import gmap strings list fin_maps sorting.

#[local] Open Scope string_scope.
#[local] Open Scope list_scope.
#[local] Open Scope Z_scope.

(** ** Strings *)

Module JsString.

Definition code (c : ascii) : Z := Z.of_N (N_of_ascii c).

Definition fromCode (n : Z) : ascii := ascii_of_N (Z.to_N n).

(** White space and line terminators: TAB, LF, VT, FF, CR, SP, NBSP. *)
Definition isWhiteSpace (c : ascii) : bool :=
  let n := code c in
  ((9 <=? n) && (n <=? 13)) || (n =? 32) || (n =? 160).

(** The class [\d]. *)
Definition isDigit (c : ascii) : bool :=
  let n := code c in (48 <=? n) && (n <=? 57).

Definition lowerChar (c : ascii) : ascii :=
  let n := code c in
  if ((65 <=? n) && (n <=? 90))
     || ((192 <=? n) && (n <=? 222) && negb (n =? 215))
  then fromCode (n + 32) else c.

Fixpoint toLowerCase (s : string) : string :=
  match s with
  | EmptyString => EmptyString
  | String c r => String (lowerChar c) (toLowerCase r)
  end.

Fixpoint trimStart (s : string) : string :=
  match s with
  | EmptyString => EmptyString
  | String c r => if isWhiteSpace c then trimStart r else s
  end.

Fixpoint trimEnd (s : string) : string :=
  match s with
  | EmptyString => EmptyString
  | String c r =>
      match trimEnd r with
      | EmptyString => if isWhiteSpace c then EmptyString
                       else String c EmptyString
      | r' => String c r'
      end
  end.

Definition trim (s : string) : string := trimEnd (trimStart s).

Fixpoint startsWith (s p : string) : bool :=
  match p, s with
  | EmptyString, _ => true
  | String _ _, EmptyString => false
  | String b p', String a s' => if Ascii.eqb a b then startsWith s' p' else false
  end.

Fixpoint includes (s p : string) : bool :=
  startsWith s p ||
  match s with
  | EmptyString => false
  | String _ r => includes r p
  end.

(** [s.replace(/[\s-]/g, '')] *)
Fixpoint removeSpaceHyphen (s : string) : string :=
  match s with
  | EmptyString => EmptyString
  | String c r =>
      if isWhiteSpace c || Ascii.eqb c "-" then removeSpaceHyphen r
      else String c (removeSpaceHyphen r)
  end.

Fixpoint every (p : ascii -> bool) (s : string) : bool :=
  match s with
  | EmptyString => true
  | String c r => p c && every p r
  end.

Definition strlen (s : string) : Z := Z.of_nat (String.length s).

(** [/^[\d-]{10,17}$/.test(s)] *)
Definition isbnPattern (s : string) : bool :=
  (10 <=? strlen s) && (strlen s <=? 17)
  && every (fun c => isDigit c || Ascii.eqb c "-") s.

End JsString.

(** ** Numbers and their text *)

Module JsNumber.
Import JsString.

Definition digitValue (c : ascii) : option Z :=
  let n := code c in
  if (48 <=? n) && (n <=? 57) then Some (n - 48)
  else if (97 <=? n) && (n <=? 122) then Some (n - 87)
  else if (65 <=? n) && (n <=? 90) then Some (n - 55)
  else None.

(** The values of the longest prefix of [s] made of digits of radix [R]. *)
Fixpoint radixDigits (R : Z) (s : string) : list Z :=
  match s with
  | EmptyString => []
  | String c r =>
      match digitValue c with
      | Some d => if d <? R then d :: radixDigits R r else []
      | None => []
      end
  end.

Definition digitsValue (R : Z) (ds : list Z) : Z :=
  fold_left (fun acc d => acc * R + d) ds 0.

(** [parseInt(input)] with no radix; [None] is [NaN]. White space is
    skipped, a sign is read, a [0x] or [0X] prefix selects radix 16, and
    the longest run of digits is the value. *)
Definition parseInt (input : string) : option Z :=
  let s := trimStart input in
  let '(sign, s) :=
    match s with
    | String c r =>
        if Ascii.eqb c "-" then (-1, r)
        else if Ascii.eqb c "+" then (1, r)
        else (1, s)
    | EmptyString => (1, s)
    end in
  let '(R, s) :=
    match s with
    | String c (String x r) =>
        if Ascii.eqb c "0" && (Ascii.eqb x "x" || Ascii.eqb x "X")
        then (16, r) else (10, s)
    | _ => (10, s)
    end in
  match radixDigits R s with
  | [] => None
  | ds => Some (sign * digitsValue R ds)
  end.

(** Does [s] begin with a decimal digit? *)
Definition leadingDigit (s : string) : bool :=
  match s with
  | String c _ => isDigit c
  | EmptyString => false
  end.

(** Does [s] begin with [x] or [X]? *)
Definition leadingX (s : string) : bool :=
  match s with
  | String c _ => Ascii.eqb c "x" || Ascii.eqb c "X"
  | EmptyString => false
  end.

(** Does [s] begin with [0x] or [0X]? *)
Definition hexPrefix (s : string) : bool :=
  match s with
  | String c (String x _) =>
      Ascii.eqb c "0" && (Ascii.eqb x "x" || Ascii.eqb x "X")
  | _ => false
  end.

(** [s] without its sign, when it begins with one. *)
Definition afterSign (s : string) : string :=
  match s with
  | String c r => if Ascii.eqb c "-" || Ascii.eqb c "+" then r else s
  | EmptyString => s
  end.

(** No integer begins [s]: after the leading white space and at most one
    sign, what comes next is not a decimal digit. *)
Definition noLeadingInteger (s : string) : bool :=
  negb (leadingDigit (afterSign (trimStart s))).

(** [String(n)] for an integer [n]. *)
Definition toString (n : Z) : string :=
  if n <? 0
  then String "-" (NilZero.string_of_uint (N.to_uint (Z.to_N (- n))))
  else NilZero.string_of_uint (N.to_uint (Z.to_N n)).

End JsNumber.

(** ** The data model *)

Module Book.
Record t := mk {
  id : Z;
  title : string;
  author : string;
  genre : string;
  year : option Z;
  description : string;
  isbn : string;
  createdAt : Z;
  updatedAt : Z
}.
End Book.

(** A candidate record, as it arrives in a request body. *)
Module BookData.
Record t := mk {
  title : option string;
  author : option string;
  genre : option string;
  year : option Z;
  description : option string;
  isbn : option string
}.
End BookData.

(** The query string of [GET /api/books]. *)
Module Query.
Record t := mk {
  search : option string;
  genre : option string;
  year : option string;
  author : option string;
  limit : option string;
  offset : option string
}.
End Query.

(** What one [new Date()] observes. *)
Module Date.
Record t := mk {
  toISOString : Z;
  getFullYear : Z
}.
End Date.

(** ** Truthiness and the operators built on it *)

Definition truthyString (v : option string) : bool :=
  match v with
  | Some s => negb (String.eqb s "")
  | None => false
  end.

Definition truthyNumber (v : option Z) : bool :=
  match v with
  | Some n => negb (n =? 0)
  | None => false
  end.

(** [v || d] on an optional string. *)
Definition orString (v : option string) (d : string) : string :=
  match v with
  | Some s => if String.eqb s "" then d else s
  | None => d
  end.

(** [v || null] on an optional number. *)
Definition orNull (v : option Z) : option Z :=
  if truthyNumber v then v else None.

(** [v ? v.trim() : ''] *)
Definition trimOrEmpty (v : option string) : string :=
  match v with
  | Some s => if String.eqb s "" then "" else JsString.trim s
  | None => ""
  end.

(** The string held by a field that validation found present. *)
Definition str (v : option string) : string := default "" v.

(** [b.id === n], where [n] may be [NaN]. *)
Definition strictEq (a : Z) (n : option Z) : bool :=
  match n with
  | Some b => a =? b
  | None => false
  end.

(** [arr.findIndex(p)]; [None] is [-1]. *)
Fixpoint findIndex {A} (p : A -> bool) (l : list A) : option nat :=
  match l with
  | [] => None
  | x :: r => if p x then Some O else S <$> findIndex p r
  end.

(** [arr.slice(start, end)] with ECMAScript's relative indices; a [NaN]
    bound counts as 0. *)
Definition slice {A} (l : list A) (start end_ : option Z) : list A :=
  let len := Z.of_nat (length l) in
  let relativeStart := default 0 start in
  let k := if relativeStart <? 0 then Z.max (len + relativeStart) 0
           else Z.min relativeStart len in
  let relativeEnd := default 0 end_ in
  let final := if relativeEnd <? 0 then Z.max (len + relativeEnd) 0
               else Z.min relativeEnd len in
  take (Z.to_nat (final - k)) (drop (Z.to_nat k) l).

(** ** The outside world and [async] functions *)

Inductive FileData :=
| Unparsable
| Stringified (books : list Book.t).

Record World := mkWorld {
  file : option FileData;          (* [None]: the file does not exist *)
  writable : bool;                 (* does [fs.writeFile] succeed *)
  written : list (list Book.t);    (* what each [fs.writeFile] call was given *)
  clock : nat -> Date.t;           (* the successive readings of the clock *)
  ticks : nat                      (* how many readings were taken *)
}.

Inductive Outcome (A : Type) :=
| Return (a : A)
| Throw.
Arguments Return {A} a.
Arguments Throw {A}.

Definition Async (A : Type) : Type := World -> Outcome A * World.

Definition ret {A} (a : A) : Async A := fun w => (Return a, w).

Definition throw {A} : Async A := fun w => (Throw, w).

Definition bind {A B} (m : Async A) (k : A -> Async B) : Async B :=
  fun w =>
    match m w with
    | (Return a, w') => k a w'
    | (Throw, w') => (Throw, w')
    end.

Definition tryCatch {A} (m handler : Async A) : Async A :=
  fun w =>
    match m w with
    | (Return a, w') => (Return a, w')
    | (Throw, w') => handler w'
    end.

Notation "'let*' x ':=' m 'in' k" := (bind m (fun x => k))
  (at level 10, x name, m at level 100, k at level 200).

Definition newDate : Async Date.t :=
  fun w =>
    (Return (clock w (ticks w)),
     mkWorld (file w) (writable w) (written w) (clock w) (S (ticks w))).

Definition fs_readFile : Async FileData :=
  fun w =>
    match file w with
    | Some data => (Return data, w)
    | None => (Throw, w)
    end.

Definition JSON_parse (data : FileData) : Async (list Book.t) :=
  match data with
  | Stringified books => ret books
  | Unparsable => throw
  end.

Definition fs_writeFile (books : list Book.t) : Async unit :=
  fun w =>
    if writable w
    then (Return tt,
          mkWorld (Some (Stringified books)) true (written w ++ [books])
                  (clock w) (ticks w))
    else (Throw,
          mkWorld (file w) false (written w ++ [books]) (clock w) (ticks w)).

(** The collection the backing file holds: empty when the file is missing
    or cannot be parsed. *)
Definition stored (w : World) : list Book.t :=
  match file w with
  | Some (Stringified books) => books
  | _ => []
  end.

(** ** Helper functions *)

Definition readBooks : Async (list Book.t) :=
  tryCatch (let* data := fs_readFile in JSON_parse data) (ret []).

Definition writeBooks (books : list Book.t) : Async unit :=
  fs_writeFile books.

Definition generateId (books : list Book.t) : Z :=
  match Book.id <$> books with
  | [] => 1
  | n :: ids => fold_left Z.max ids n + 1
  end.

(** [!v || v.trim().length === 0] *)
Definition isBlank (v : option string) : bool :=
  negb (truthyString v) || (String.length (JsString.trim (str v)) =? 0)%nat.

(** [currentYear] is [new Date().getFullYear()]. *)
Definition validateBook (currentYear : Z) (book : BookData.t) : list string :=
  let errors := [] in
  let errors :=
    if isBlank (BookData.title book)
    then errors ++ ["Title is required"] else errors in
  let errors :=
    if isBlank (BookData.author book)
    then errors ++ ["Author is required"] else errors in
  let errors :=
    if truthyNumber (BookData.year book)
       && ((default 0 (BookData.year book) <? 1000)
           || (default 0 (BookData.year book) >? currentYear))
    then errors ++ ["Year must be between 1000 and current year"]
    else errors in
  let errors :=
    if truthyString (BookData.isbn book)
       && negb (JsString.isbnPattern
                  (JsString.removeSpaceHyphen (str (BookData.isbn book))))
    then errors ++ ["Invalid ISBN format"] else errors in
  errors.

(** ** Responses *)

Module Stats.
Record t := mk {
  totalBooks : nat;
  totalAuthors : nat;
  totalGenres : nat;
  genreDistribution : gmap string nat;
  yearDistribution : gmap string nat;
  recentlyAdded : list Book.t
}.
End Stats.

Module BulkError.
Record t := mk {
  index : nat;
  errors : list string
}.
End BulkError.

Module Results.
Record t := mk {
  success : list Book.t;
  errors : list BulkError.t
}.
End Results.

(** The JSON documents the handlers send. *)
Inductive Json :=
| JBook (book : Book.t)
| JPage (books : list Book.t) (total count : nat)
| JErrors (errors : list string)
| JError (error : string)
| JDeleted (message : string) (book : Book.t)
| JStats (stats : Stats.t)
| JStrings (items : list string)
| JResults (results : Results.t).

Record Response := mkResponse {
  status : Z;
  body : Json
}.

(** [res.status(code).json(doc)] *)
Definition res_status_json (code : Z) (doc : Json) : Async Response :=
  ret (mkResponse code doc).

(** [res.json(doc)] *)
Definition res_json (doc : Json) : Async Response :=
  ret (mkResponse 200 doc).

(** ** Pieces shared by the handlers *)

(** A stable sort; [le a b] says that the comparator gives [a], [b] a value
    that is not positive. *)
Fixpoint sortInsert {A} (le : A -> A -> bool) (x : A) (l : list A) : list A :=
  match l with
  | [] => [x]
  | y :: r => if le x y then x :: y :: r else y :: sortInsert le x r
  end.

Definition Array_sort {A} (le : A -> A -> bool) (l : list A) : list A :=
  foldr (sortInsert le) [] l.

(** The test of the three duplicate searches. *)
Definition sameTitleAuthor (book : Book.t) (bookData : BookData.t) : bool :=
  String.eqb (JsString.toLowerCase (Book.title book))
             (JsString.toLowerCase (str (BookData.title bookData)))
  && String.eqb (JsString.toLowerCase (Book.author book))
                (JsString.toLowerCase (str (BookData.author bookData))).

(** The object literal [newBook] of the two creating handlers. *)
Definition newBook (books : list Book.t) (bookData : BookData.t)
    (created updated : Date.t) : Book.t :=
  Book.mk (generateId books)
          (JsString.trim (str (BookData.title bookData)))
          (JsString.trim (str (BookData.author bookData)))
          (orString (BookData.genre bookData) "Other")
          (orNull (BookData.year bookData))
          (trimOrEmpty (BookData.description bookData))
          (trimOrEmpty (BookData.isbn bookData))
          (Date.toISOString created)
          (Date.toISOString updated).

(** The object literal [updatedBook]: the spread keeps [id] and
    [createdAt]. *)
Definition updatedBook (old : Book.t) (bookData : BookData.t)
    (updated : Date.t) : Book.t :=
  Book.mk (Book.id old)
          (JsString.trim (str (BookData.title bookData)))
          (JsString.trim (str (BookData.author bookData)))
          (orString (BookData.genre bookData) "Other")
          (orNull (BookData.year bookData))
          (trimOrEmpty (BookData.description bookData))
          (trimOrEmpty (BookData.isbn bookData))
          (Book.createdAt old)
          (Date.toISOString updated).

(** [obj[key] = (obj[key] || 0) + 1] *)
Definition increment (key : string) (obj : gmap string nat) : gmap string nat :=
  <[key := (default 0%nat (obj !! key) + 1)%nat]> obj.

Definition decadeLabel (year : Z) : string :=
  let decade := (year / 10) * 10 in
  (JsNumber.toString decade ++ "s")%string.

(** ** Route handlers *)

Section QueryEngine.

(** [ToNumber] on a string, when the result is an integer; [None] stands
    for every other result. *)
Variable StringToNumber : string -> option Z.

(** [book.year == year] *)
Definition looseEq (bookYear : option Z) (year : string) : bool :=
  match bookYear, StringToNumber year with
  | Some a, Some b => a =? b
  | _, _ => false
  end.

Definition matchesSearch (searchLower : string) (book : Book.t) : bool :=
  JsString.includes (JsString.toLowerCase (Book.title book)) searchLower
  || JsString.includes (JsString.toLowerCase (Book.author book)) searchLower
  || JsString.includes (JsString.toLowerCase (Book.genre book)) searchLower
  || (negb (String.eqb (Book.description book) "")
      && JsString.includes (JsString.toLowerCase (Book.description book))
                           searchLower).

Definition applyFilters (query : Query.t) (books : list Book.t) : list Book.t :=
  let filteredBooks := books in
  let filteredBooks :=
    if truthyString (Query.search query)
    then List.filter
           (matchesSearch (JsString.toLowerCase (str (Query.search query))))
           filteredBooks
    else filteredBooks in
  let filteredBooks :=
    if truthyString (Query.genre query)
    then List.filter
           (fun book => String.eqb (Book.genre book) (str (Query.genre query)))
           filteredBooks
    else filteredBooks in
  let filteredBooks :=
    if truthyString (Query.year query)
    then List.filter
           (fun book => looseEq (Book.year book) (str (Query.year query)))
           filteredBooks
    else filteredBooks in
  let filteredBooks :=
    if truthyString (Query.author query)
    then List.filter
           (fun book =>
              JsString.includes (JsString.toLowerCase (Book.author book))
                (JsString.toLowerCase (str (Query.author query))))
           filteredBooks
    else filteredBooks in
  filteredBooks.

(** [parseInt(v)] on a query parameter; [parseInt(undefined)] is [NaN]. *)
Definition parseParam (v : option string) : option Z :=
  match v with
  | Some s => JsNumber.parseInt s
  | None => None
  end.

Definition paginate (query : Query.t) (filteredBooks : list Book.t) : list Book.t :=
  if truthyString (Query.limit query)
  then
    let limitNum := parseParam (Query.limit query) in
    let offsetNum := default 0 (parseParam (Query.offset query)) in
    slice filteredBooks (Some offsetNum) ((fun l => offsetNum + l) <$> limitNum)
  else filteredBooks.

(** GET /api/books *)
Definition get_api_books (query : Query.t) : Async Response :=
  tryCatch
    (let* books := readBooks in
     let filteredBooks := applyFilters query books in
     let total := length filteredBooks in
     let filteredBooks := paginate query filteredBooks in
     res_json (JPage filteredBooks total (length filteredBooks)))
    (res_status_json 500 (JError "Failed to fetch books")).

End QueryEngine.

(** GET /api/books/:id *)
Definition get_api_books_id (id : string) : Async Response :=
  tryCatch
    (let* books := readBooks in
     let book := List.find (fun b => strictEq (Book.id b) (JsNumber.parseInt id))
                           books in
     match book with
     | None => res_status_json 404 (JError "Book not found")
     | Some book => res_json (JBook book)
     end)
    (res_status_json 500 (JError "Failed to fetch book")).

(** POST /api/books *)
Definition post_api_books (bookData : BookData.t) : Async Response :=
  tryCatch
    (let* today := newDate in
     let errors := validateBook (Date.getFullYear today) bookData in
     if (0 <? length errors)%nat
     then res_status_json 400 (JErrors errors)
     else
       let* books := readBooks in
       let duplicate :=
         List.find (fun book => sameTitleAuthor book bookData) books in
       match duplicate with
       | Some _ =>
           res_status_json 400
             (JError "Book with same title and author already exists")
       | None =>
           let* created := newDate in
           let* updated := newDate in
           let newBook := newBook books bookData created updated in
           let books := books ++ [newBook] in
           let* _ := writeBooks books in
           res_status_json 201 (JBook newBook)
       end)
    (res_status_json 500 (JError "Failed to create book")).

(** PUT /api/books/:id *)
Definition put_api_books_id (id : string) (bookData : BookData.t)
    : Async Response :=
  tryCatch
    (let bookId := JsNumber.parseInt id in
     let* today := newDate in
     let errors := validateBook (Date.getFullYear today) bookData in
     if (0 <? length errors)%nat
     then res_status_json 400 (JErrors errors)
     else
       let* books := readBooks in
       match findIndex (fun b => strictEq (Book.id b) bookId) books with
       | None => res_status_json 404 (JError "Book not found")
       | Some bookIndex =>
           let duplicate :=
             List.find
               (fun book => negb (strictEq (Book.id book) bookId)
                            && sameTitleAuthor book bookData)
               books in
           match duplicate, books !! bookIndex with
           | Some _, _ =>
               res_status_json 400
                 (JError "Book with same title and author already exists")
           | None, None => throw
           | None, Some old =>
               let* updated := newDate in
               let updatedBook := updatedBook old bookData updated in
               let books := <[bookIndex := updatedBook]> books in
               let* _ := writeBooks books in
               res_json (JBook updatedBook)
           end
       end)
    (res_status_json 500 (JError "Failed to update book")).

(** DELETE /api/books/:id *)
Definition delete_api_books_id (id : string) : Async Response :=
  tryCatch
    (let bookId := JsNumber.parseInt id in
     let* books := readBooks in
     match findIndex (fun b => strictEq (Book.id b) bookId) books with
     | None => res_status_json 404 (JError "Book not found")
     | Some bookIndex =>
         match books !! bookIndex with
         | None => throw
         | Some deletedBook =>
             let books := delete bookIndex books in
             let* _ := writeBooks books in
             res_json (JDeleted "Book deleted successfully" deletedBook)
         end
     end)
    (res_status_json 500 (JError "Failed to delete book")).

(** The two [forEach] loops of the statistics. A histogram is a finite map
    from keys to counts; a genre that names a member of [Object.prototype]
    (such as "constructor") is outside the embedding, and no decade label is
    such a name. *)
Definition countGenres (books : list Book.t) : gmap string nat :=
  fold_left (fun dist book => increment (Book.genre book) dist) books ∅.

Definition countDecades (books : list Book.t) : gmap string nat :=
  fold_left
    (fun dist book =>
       if truthyNumber (Book.year book)
       then increment (decadeLabel (default 0 (Book.year book))) dist
       else dist)
    books ∅.

(** The comparator [(a, b) => new Date(b.createdAt) - new Date(a.createdAt)]
    is not positive when [b] is not newer than [a]. *)
Definition newestFirst (a b : Book.t) : bool :=
  Book.createdAt b <=? Book.createdAt a.

(** GET /api/stats; [sort] reorders [books] in place, so the two loops run
    over the sorted array. *)
Definition get_api_stats : Async Response :=
  tryCatch
    (let* books := readBooks in
     let totalBooks := length books in
     let totalAuthors := size (list_to_set (Book.author <$> books) : gset string) in
     let totalGenres := size (list_to_set (Book.genre <$> books) : gset string) in
     let books := Array_sort newestFirst books in
     let recentlyAdded := take 5 books in
     let genreDistribution := countGenres books in
     let yearDistribution := countDecades books in
     res_json (JStats (Stats.mk totalBooks totalAuthors totalGenres
                                genreDistribution yearDistribution
                                recentlyAdded)))
    (res_status_json 500 (JError "Failed to fetch statistics")).

(** [[...new Set(items)].sort()] *)
Definition sortedSet (items : list string) : list string :=
  Array_sort String.leb (elements (list_to_set items : gset string)).

(** GET /api/genres *)
Definition get_api_genres : Async Response :=
  tryCatch
    (let* books := readBooks in
     let genres := sortedSet (Book.genre <$> books) in
     res_json (JStrings genres))
    (res_status_json 500 (JError "Failed to fetch genres")).

(** GET /api/authors *)
Definition get_api_authors : Async Response :=
  tryCatch
    (let* books := readBooks in
     let authors := sortedSet (Book.author <$> books) in
     res_json (JStrings authors))
    (res_status_json 500 (JError "Failed to fetch authors")).

(** The [for] loop of the bulk handler, from index [i] on. *)
Fixpoint bulkLoop (booksData : list BookData.t) (i : nat)
    (books : list Book.t) (results : Results.t)
    : Async (list Book.t * Results.t) :=
  match booksData with
  | [] => ret (books, results)
  | bookData :: rest =>
      let* today := newDate in
      let errors := validateBook (Date.getFullYear today) bookData in
      if (0 <? length errors)%nat
      then
        bulkLoop rest (S i) books
          (Results.mk (Results.success results)
                      (Results.errors results ++ [BulkError.mk i errors]))
      else
        let duplicate :=
          List.find (fun book => sameTitleAuthor book bookData) books in
        match duplicate with
        | Some _ =>
            bulkLoop rest (S i) books
              (Results.mk (Results.success results)
                 (Results.errors results
                  ++ [BulkError.mk i
                        ["Book with same title and author already exists"]]))
        | None =>
            let* created := newDate in
            let* updated := newDate in
            let newBook := newBook books bookData created updated in
            bulkLoop rest (S i) (books ++ [newBook])
              (Results.mk (Results.success results ++ [newBook])
                          (Results.errors results))
        end
  end.

(** POST /api/books/bulk; [None] is a body whose [books] is not an array. *)
Definition post_api_books_bulk (booksData : option (list BookData.t))
    : Async Response :=
  tryCatch
    (match booksData with
     | None => res_status_json 400 (JError "Books data must be an array")
     | Some booksData =>
         let* books := readBooks in
         let results := Results.mk [] [] in
         let* looped := bulkLoop booksData 0 books results in
         let '(books, results) := looped in
         if (0 <? length (Results.success results))%nat
         then
           let* _ := writeBooks books in
           res_status_json 201 (JResults results)
         else res_status_json 201 (JResults results)
     end)
    (res_status_json 500 (JError "Failed to process bulk operation")).

(** ** Start-up *)

Definition fs_access : Async unit :=
  fun w =>
    match file w with
    | Some _ => (Return tt, w)
    | None => (Throw, w)
    end.

Definition sampleBooks (d1 d2 d3 d4 d5 d6 d7 d8 : Date.t) : list Book.t :=
  [ Book.mk 1 "To Kill a Mockingbird" "Harper Lee" "Fiction" (Some 1960)
      "A classic novel about racial injustice and moral growth in the American South."
      "978-0-06-112008-4" (Date.toISOString d1) (Date.toISOString d2);
    Book.mk 2 "1984" "George Orwell" "Science Fiction" (Some 1949)
      "A dystopian novel about totalitarianism and surveillance."
      "978-0-452-28423-4" (Date.toISOString d3) (Date.toISOString d4);
    Book.mk 3 "Pride and Prejudice" "Jane Austen" "Romance" (Some 1813)
      "A romantic novel about Elizabeth Bennet and Mr. Darcy."
      "978-0-14-143951-8" (Date.toISOString d5) (Date.toISOString d6);
    Book.mk 4 "The Great Gatsby" "F. Scott Fitzgerald" "Fiction" (Some 1925)
      "A story of decadence and excess in Jazz Age America."
      "978-0-7432-7356-5" (Date.toISOString d7) (Date.toISOString d8) ].

Definition initializeBooksData : Async unit :=
  tryCatch fs_access
    (let* d1 := newDate in
     let* d2 := newDate in
     let* d3 := newDate in
     let* d4 := newDate in
     let* d5 := newDate in
     let* d6 := newDate in
     let* d7 := newDate in
     let* d8 := newDate in
     fs_writeFile (sampleBooks d1 d2 d3 d4 d5 d6 d7 d8)).

(** ** The page: the data kept by [BookCatalogue] *)

(** A book as the page holds it. *)
Module ClientBook.
Record t := mk {
  id : Z;
  title : string;
  author : string;
  genre : string;
  year : option Z;
  description : string;
  isbn : string
}.
End ClientBook.

(** The object [bookData] that [saveBook] builds from the form; its year
    is [parseInt(...) || null]. *)
Module FormData.
Record t := mk {
  title : string;
  author : string;
  genre : string;
  year : option Z;
  description : string;
  isbn : string
}.
End FormData.

(** The fields of a [BookCatalogue] that hold data. *)
Module BookCatalogue.
Record t := mk {
  books : list ClientBook.t;
  currentEditId : option Z
}.
End BookCatalogue.

(** [{ ...bookData, id }] *)
Definition withId (bookData : FormData.t) (id : Z) : ClientBook.t :=
  ClientBook.mk id (FormData.title bookData) (FormData.author bookData)
                (FormData.genre bookData) (FormData.year bookData)
                (FormData.description bookData) (FormData.isbn bookData).

(** [Math.max(...ids, 0)] *)
Definition Math_max0 (ids : list Z) : Z := foldr Z.max 0 ids.

(** [saveBookLocally]: the data it leaves in the catalogue; [closeModal]
    resets [currentEditId]. *)
Definition saveBookLocally (bookData : FormData.t) (this : BookCatalogue.t)
    : BookCatalogue.t :=
  let books :=
    if truthyNumber (BookCatalogue.currentEditId this)
    then
      let editId := default 0 (BookCatalogue.currentEditId this) in
      match findIndex (fun book => ClientBook.id book =? editId)
                      (BookCatalogue.books this) with
      | Some index => <[index := withId bookData editId]> (BookCatalogue.books this)
      | None => BookCatalogue.books this
      end
    else
      let newId := Math_max0 (ClientBook.id <$> BookCatalogue.books this) + 1 in
      BookCatalogue.books this ++ [withId bookData newId] in
  BookCatalogue.mk books None.

(** [deleteBookLocally] *)
Definition deleteBookLocally (id : Z) (this : BookCatalogue.t) : BookCatalogue.t :=
  BookCatalogue.mk
    (List.filter (fun book => negb (ClientBook.id book =? id))
                 (BookCatalogue.books this))
    (BookCatalogue.currentEditId this).

(** [editBook]: the id that [openModal] stores when the book is found. *)
Definition editBook (id : Z) (this : BookCatalogue.t) : BookCatalogue.t :=
  match List.find (fun book => ClientBook.id book =? id) (BookCatalogue.books this) with
  | Some book => BookCatalogue.mk (BookCatalogue.books this) (Some (ClientBook.id book))
  | None => this
  end.

(** The callback of [this.books.filter] in [filterBooks]; reading
    [book.year.toString()] of a book without a year throws. *)
Definition matchesFilters (searchTerm genreFilter yearFilter : string)
    (book : ClientBook.t) : Outcome bool :=
  let matchesSearch :=
    JsString.includes (JsString.toLowerCase (ClientBook.title book)) searchTerm
    || JsString.includes (JsString.toLowerCase (ClientBook.author book)) searchTerm
    || JsString.includes (JsString.toLowerCase (ClientBook.genre book)) searchTerm in
  let matchesGenre :=
    String.eqb genreFilter "" || String.eqb (ClientBook.genre book) genreFilter in
  if String.eqb yearFilter ""
  then Return (matchesSearch && matchesGenre && true)
  else
    match ClientBook.year book with
    | None => Throw
    | Some year =>
        let matchesYear := String.eqb (JsNumber.toString year) yearFilter in
        Return (matchesSearch && matchesGenre && matchesYear)
    end.

(** [arr.filter(callback)] for a callback that may throw. *)
Fixpoint filterThrowing {A} (callback : A -> Outcome bool) (l : list A)
    : Outcome (list A) :=
  match l with
  | [] => Return []
  | x :: r =>
      match callback x with
      | Throw => Throw
      | Return keep =>
          match filterThrowing callback r with
          | Throw => Throw
          | Return kept => Return (if keep then x :: kept else kept)
          end
      end
  end.

(** [book.year || 0] *)
Definition yearOrZero (book : ClientBook.t) : Z :=
  default 0 (orNull (ClientBook.year book)).

(** What the callback answers when it does not throw. *)
Definition shows (searchTerm genreFilter yearFilter : string)
    (book : ClientBook.t) : bool :=
  match matchesFilters searchTerm genreFilter yearFilter book with
  | Return keep => keep
  | Throw => false
  end.

(** The years that [populateFilters] offers:
    [[...new Set(books.map(book => book.year).filter(year => year))]
       .sort((a, b) => b - a)]. *)
Definition yearOptions (books : list ClientBook.t) : list Z :=
  Array_sort (fun a b => b - a <=? 0)
    (elements
       (list_to_set
          (omap (fun book => orNull (ClientBook.year book)) books) : gset Z)).

Section FilterBooks.

(** [a.localeCompare(b)], the collation of the browser. *)
Variable localeCompare : string -> string -> Z.

(** Is the comparator of [filterBooks] not positive on [a], [b]? *)
Definition sortsBefore (sortBy : string) (a b : ClientBook.t) : bool :=
  if String.eqb sortBy "author"
  then localeCompare (ClientBook.author a) (ClientBook.author b) <=? 0
  else if String.eqb sortBy "year"
  then yearOrZero a - yearOrZero b <=? 0
  else if String.eqb sortBy "newest"
  then yearOrZero b - yearOrZero a <=? 0
  else localeCompare (ClientBook.title a) (ClientBook.title b) <=? 0.

(** [filterBooks]: the list it hands to [displayBooks]. The arguments are
    the values of the four controls. *)
Definition filterBooks (searchInput genreFilter yearFilter sortBy : string)
    (this : BookCatalogue.t) : Outcome (list ClientBook.t) :=
  let searchTerm := JsString.toLowerCase searchInput in
  match filterThrowing (matchesFilters searchTerm genreFilter yearFilter)
                       (BookCatalogue.books this) with
  | Throw => Throw
  | Return filteredBooks => Return (Array_sort (sortsBefore sortBy) filteredBooks)
  end.

End FilterBooks.

(** ** The validation rules, in the words of the specification *)

Module Rules.
Import JsString.

(** Present and not made of white space only. *)
Definition nonBlank (v : option string) : bool :=
  match v with
  | Some s => negb (every isWhiteSpace s)
  | None => false
  end.

Definition inRange (currentYear y : Z) : bool :=
  (1000 <=? y) && (y <=? currentYear).

(** Between 10 and 17 characters, all of them digits. *)
Definition digits10to17 (s : string) : bool :=
  (10 <=? strlen s) && (strlen s <=? 17) && every isDigit s.

(** A year that is present and not zero lies in the range. *)
Definition yearOk (currentYear : Z) (v : option Z) : bool :=
  match v with
  | Some y => (y =? 0) || inRange currentYear y
  | None => true
  end.

(** An ISBN that is present and not empty has 10 to 17 digits once white
    space and hyphens are removed. *)
Definition isbnOk (v : option string) : bool :=
  match v with
  | Some s => String.eqb s "" || digits10to17 (removeSpaceHyphen s)
  | None => true
  end.

(** The same two rules for every year and ISBN that is present. *)
Definition yearOkIfPresent (currentYear : Z) (v : option Z) : bool :=
  match v with
  | Some y => inRange currentYear y
  | None => true
  end.

Definition isbnOkIfPresent (v : option string) : bool :=
  match v with
  | Some s => digits10to17 (removeSpaceHyphen s)
  | None => true
  end.

(** The four rules together. *)
Definition acceptable (currentYear : Z) (book : BookData.t) : Prop :=
  nonBlank (BookData.title book) = true
  /\ nonBlank (BookData.author book) = true
  /\ yearOk currentYear (BookData.year book) = true
  /\ isbnOk (BookData.isbn book) = true.

(** The four rules with the last two applied to every year and ISBN that
    is present. *)
Definition acceptableIfPresent (currentYear : Z) (book : BookData.t) : Prop :=
  nonBlank (BookData.title book) = true
  /\ nonBlank (BookData.author book) = true
  /\ yearOkIfPresent currentYear (BookData.year book) = true
  /\ isbnOkIfPresent (BookData.isbn book) = true.

(** The messages of the violated rules, in the order title, author, year,
    ISBN. *)
Definition messages (title author year isbn : bool) : list string :=
  (if title then [] else ["Title is required"])
  ++ (if author then [] else ["Author is required"])
  ++ (if year then [] else ["Year must be between 1000 and current year"])
  ++ (if isbn then [] else ["Invalid ISBN format"]).

End Rules.

(** ** Properties of collections and records *)

(** Two books with the same title and author, letter case aside. *)
Definition samePair (a b : Book.t) : Prop :=
  JsString.toLowerCase (Book.title a) = JsString.toLowerCase (Book.title b)
  /\ JsString.toLowerCase (Book.author a) = JsString.toLowerCase (Book.author b).

(** No two positions of the collection hold the same pair. *)
Definition uniquePairs (books : list Book.t) : Prop :=
  forall (i j : nat) (a b : Book.t),
    books !! i = Some a -> books !! j = Some b -> samePair a b -> i = j.

(** A stored record that repeats the fields of the candidate as they were
    sent. *)
Definition equalsInput (book : Book.t) (bookData : BookData.t) : Prop :=
  BookData.title bookData = Some (Book.title book)
  /\ BookData.author bookData = Some (Book.author book)
  /\ BookData.genre bookData = Some (Book.genre book)
  /\ BookData.year bookData = Book.year book
  /\ BookData.description bookData = Some (Book.description book)
  /\ BookData.isbn bookData = Some (Book.isbn book).

(** A book with a truthy year whose decade has the given label. *)
Definition inDecade (label : string) (book : Book.t) : bool :=
  truthyNumber (Book.year book)
  && String.eqb (decadeLabel (default 0 (Book.year book))) label.

(** A histogram entry for a count: a key that was never counted is absent. *)
Definition entry (n : nat) : option nat :=
  if (n =? 0)%nat then None else Some n.

(** The world after one reading of the clock. *)
Definition tick (w : World) : World :=
  mkWorld (file w) (writable w) (written w) (clock w) (S (ticks w)).

(** ** Invariants of the stored collection *)

(** The world after [readings] clock readings and one [writeBooks books]:
    the file changes only when the disk can be written. *)
Definition afterWrite (w : World) (readings : nat) (books : list Book.t) : World :=
  mkWorld (if writable w then Some (Stringified books) else file w)
          (writable w) (written w ++ [books]) (clock w) (readings + ticks w).

(** No two positions of the collection hold the same id. *)
Definition uniqueIds (books : list Book.t) : Prop :=
  NoDup (Book.id <$> books).

(** Is the first character, if any, not white space? *)
Definition headVisible (s : string) : bool :=
  match s with
  | EmptyString => true
  | String c _ => negb (JsString.isWhiteSpace c)
  end.

(** A string that is not empty and that [trim] leaves alone. *)
Definition trimmed (s : string) : Prop :=
  s <> "" /\ JsString.trim s = s.

(** A record whose title and author are trimmed. *)
Definition wellFormed (book : Book.t) : Prop :=
  trimmed (Book.title book) /\ trimmed (Book.author book).

(** A candidate whose title and author carry no surrounding white space. *)
Definition sentTrimmed (bookData : BookData.t) : Prop :=
  JsString.trim (str (BookData.title bookData)) = str (BookData.title bookData)
  /\ JsString.trim (str (BookData.author bookData))
     = str (BookData.author bookData).

(** ** Sample inputs *)

(** A candidate with a title and an author and no other field. *)
Definition candidate (title author : string) : BookData.t :=
  BookData.mk (Some title) (Some author) None None None None.

(** A world with no backing file yet, a writable disk and the given clock. *)
Definition emptyStore (clock : nat -> Date.t) : World :=
  mkWorld None true [] clock 0.

(** A complete candidate whose title starts with a space. *)
Definition paddedDune : BookData.t :=
  BookData.mk (Some " Dune") (Some "Frank Herbert") (Some "Science Fiction")
              (Some 1965) (Some "Arrakis.") (Some "9780441013593").

(** A clock that always shows the same instant of 2025. *)
Definition noon : nat -> Date.t := fun _ => Date.mk 1762041600000 2025.

(** A stored book. *)
Definition animalFarm : Book.t :=
  Book.mk 1 "Animal Farm" "George Orwell" "Satire" (Some 1945) "" "" 5 5.

(** A world whose file holds that one book. *)
Definition oneBook : World :=
  mkWorld (Some (Stringified [animalFarm])) true [] noon 0.

(** A world whose file holds two books with the ids 1 and 2. *)
Definition twoBooks : World :=
  mkWorld (Some (Stringified
                   [animalFarm;
                    Book.mk 2 "1984" "George Orwell" "Science Fiction"
                            (Some 1949) "" "" 6 6]))
          true [] noon 0.

(** A world whose file cannot be parsed. *)
Definition corruptStore : World :=
  mkWorld (Some Unparsable) true [] noon 0.

(** A page that holds one book with a year and one without. *)
Definition smallPage : BookCatalogue.t :=
  BookCatalogue.mk
    [ClientBook.mk 1 "1984" "George Orwell" "Science Fiction" (Some 1949) "" "";
     ClientBook.mk 2 "Dune" "Frank Herbert" "Science Fiction" None "" ""]
    None.

(** What the form holds for a new book. *)
Definition emmaForm : FormData.t :=
  FormData.mk "Emma" "Jane Austen" "Romance" (Some 1815) "" "".

(** A collation that tells no two strings apart. *)
Definition flatCollation : string -> string -> Z := fun _ _ => 0.

(** A [ToNumber] that finds no integer in any string. *)
Definition noNumber : string -> option Z := fun _ => None.

(** * Verification *)

(** ** The embedding on small inputs *)

Example trim_padded : JsString.trim "  Dune " = "Dune".
Proof. reflexivity. Qed.

Example toLowerCase_title : JsString.toLowerCase "To Kill" = "to kill".
Proof. reflexivity. Qed.

Example includes_inner : JsString.includes "orwell" "well" = true.
Proof. reflexivity. Qed.

Example parseInt_samples :
  JsNumber.parseInt "3abc" = Some 3
  /\ JsNumber.parseInt "abc" = None
  /\ JsNumber.parseInt " -12" = Some (-12)
  /\ JsNumber.parseInt "0x1F" = Some 31
  /\ JsNumber.parseInt "0x" = None
  /\ JsNumber.parseInt "00x1" = Some 0.
Proof. repeat split; reflexivity. Qed.

Example toString_samples :
  JsNumber.toString 1960 = "1960" /\ JsNumber.toString (-45) = "-45"
  /\ JsNumber.toString 0 = "0".
Proof. repeat split; reflexivity. Qed.

Example decadeLabel_1949 : decadeLabel 1949 = "1940s".
Proof. reflexivity. Qed.

Example slice_relative : slice [1; 2; 3; 4; 5] (Some (-2)) (Some 3) = [].
Proof. reflexivity. Qed.

Example slice_window_2_3 : slice [1; 2; 3; 4; 5] (Some 1) (Some 3) = [2; 3].
Proof. reflexivity. Qed.

Example validateBook_all_four :
  validateBook 2025
    (BookData.mk (Some " ") None None (Some 999) None (Some "123"))
  = ["Title is required"; "Author is required";
     "Year must be between 1000 and current year"; "Invalid ISBN format"].
Proof. reflexivity. Qed.

Example validateBook_seed_isbn :
  validateBook 2025
    (BookData.mk (Some "1984") (Some "George Orwell") None (Some 1949) None
                 (Some "978-0-452-28423-4"))
  = [].
Proof. reflexivity. Qed.

Example generateId_samples :
  generateId [animalFarm] = 2 /\ generateId [] = 1.
Proof. split; reflexivity. Qed.

(** ** Running [async] code *)

Lemma bind_Return {A B} (m : Async A) (k : A -> Async B) w a w' :
  m w = (Return a, w') -> bind m k w = k a w'.
Proof. intros H. unfold bind. by rewrite H. Qed.

Lemma bind_Throw {A B} (m : Async A) (k : A -> Async B) w w' :
  m w = (Throw, w') -> bind m k w = (Throw, w').
Proof. intros H. unfold bind. by rewrite H. Qed.

Lemma tryCatch_Return {A} (m h : Async A) w a w' :
  m w = (Return a, w') -> tryCatch m h w = (Return a, w').
Proof. intros H. unfold tryCatch. by rewrite H. Qed.

Lemma tryCatch_Throw {A} (m h : Async A) w w' :
  m w = (Throw, w') -> tryCatch m h w = h w'.
Proof. intros H. unfold tryCatch. by rewrite H. Qed.

(** ** Reading the store *)

Lemma readBooks_stored w : readBooks w = (Return (stored w), w).
Proof.
  unfold readBooks, stored, tryCatch, bind, fs_readFile.
  destruct (file w) as [[|books]|]; reflexivity.
Qed.

(** Claim C7. [readBooks] never throws and leaves the world as it was: it
    returns the empty array when the backing file is missing or cannot be
    parsed, and the stored array when the file parses. *)
Theorem readBooks_never_fails (w : World) :
  exists books,
    readBooks w = (Return books, w)
    /\ (file w = None -> books = [])
    /\ (file w = Some Unparsable -> books = [])
    /\ (forall saved, file w = Some (Stringified saved) -> books = saved).
Proof.
  exists (stored w). split; [apply readBooks_stored|].
  unfold stored. repeat split; intros; destruct (file w) as [[|?]|]; congruence.
Qed.

Ltac reads :=
  unfold tryCatch at 1; erewrite bind_Return by apply readBooks_stored.

(** Claim C9. The five read-only handlers (GET /api/books, /api/books/:id,
    /api/stats, /api/genres, /api/authors) leave the world unchanged: the
    backing file and the log of writes after the request are those before
    it. *)
Theorem reads_leave_store (w : World) :
  (forall toNumber query, snd (get_api_books toNumber query w) = w)
  /\ (forall id, snd (get_api_books_id id w) = w)
  /\ snd (get_api_stats w) = w
  /\ snd (get_api_genres w) = w
  /\ snd (get_api_authors w) = w.
Proof.
  repeat split; intros.
  - unfold get_api_books. reads. reflexivity.
  - unfold get_api_books_id. reads. by destruct (List.find _ _).
  - unfold get_api_stats. reads. reflexivity.
  - unfold get_api_genres. reads. reflexivity.
  - unfold get_api_authors. reads. reflexivity.
Qed.

(** ** Updating *)

Lemma findIndex_lookup {A} (p : A -> bool) (l : list A) i :
  findIndex p l = Some i ->
  exists x, l !! i = Some x /\ p x = true
            /\ forall j y, (j < i)%nat -> l !! j = Some y -> p y = false.
Proof.
  revert i. induction l as [|a l IH]; intros i; simpl; [done|].
  destruct (p a) eqn:Hp.
  - intros [= <-]. exists a. split_and!; [done..|]. intros j y Hj. lia.
  - destruct (findIndex p l) as [k|]; simpl; [|done].
    intros [= <-]. destruct (IH k eq_refl) as (x & Hx & Hpx & Hfirst).
    exists x. split_and!; [done..|].
    intros [|j] y Hj; simpl.
    + by intros [= <-].
    + apply Hfirst. lia.
Qed.

(** Claim C6. When PUT /api/books/:id answers 200, the record at the
    position of the updated book keeps [id] and [createdAt], its
    [updatedAt] is the clock reading taken for the update, and every other
    position of the stored collection is unchanged. *)
Theorem update_keeps_id_createdAt (w w' : World) (id : string)
    (bookData : BookData.t) (r : Response) :
  put_api_books_id id bookData w = (Return r, w') ->
  status r = 200 ->
  exists (i : nat) (old new : Book.t),
    stored w !! i = Some old
    /\ strictEq (Book.id old) (JsNumber.parseInt id) = true
    /\ body r = JBook new
    /\ stored w' = <[i := new]> (stored w)
    /\ stored w' !! i = Some new
    /\ Book.id new = Book.id old
    /\ Book.createdAt new = Book.createdAt old
    /\ Book.updatedAt new = Date.toISOString (clock w (S (ticks w)))
    /\ length (stored w') = length (stored w)
    /\ forall j, j <> i -> stored w' !! j = stored w !! j.
Proof.
  unfold put_api_books_id, tryCatch, bind at 1, newDate.
  destruct (0 <? length (validateBook _ _))%nat.
  { intros [= <- <-]; discriminate. }
  erewrite bind_Return by apply readBooks_stored.
  destruct (findIndex _ _) as [i|] eqn:Hi.
  2: { intros [= <- <-]; discriminate. }
  destruct (findIndex_lookup _ _ _ Hi) as (old & Hold & Hid & _).
  rewrite Hold.
  destruct (List.find _ _).
  { intros [= <- <-]; discriminate. }
  unfold bind, newDate, writeBooks, fs_writeFile, res_json, res_status_json, ret.
  cbn [writable file written clock ticks].
  destruct (writable w).
  2: { intros [= <- <-]; discriminate. }
  intros [= <- <-] _.
  eexists i, old, _. unfold stored at 1 2 3 4; cbn [file].
  split_and!; try reflexivity; try done.
  - apply list_lookup_insert_eq. by eapply lookup_lt_Some.
  - apply length_insert.
  - intros j Hj. by apply list_lookup_insert_ne.
Qed.

(** ** Pagination *)

Lemma slice_window {A} (l : list A) (O L : Z) :
  0 <= O -> 0 <= L ->
  slice l (Some O) (Some (O + L)) = take (Z.to_nat L) (drop (Z.to_nat O) l).
Proof.
  intros HO HL. unfold slice. cbv [from_option id].
  destruct (O <? 0) eqn:E1; [lia|].
  destruct (O + L <? 0) eqn:E2; [lia|].
  clear E1 E2.
  destruct (Z_le_gt_dec (Z.of_nat (length l)) O) as [Hbig|Hsmall].
  - rewrite Z.min_r by lia.
    rewrite !drop_ge by lia. by rewrite !take_nil.
  - rewrite (Z.min_l O) by lia.
    destruct (Z_le_gt_dec (O + L) (Z.of_nat (length l))).
    + rewrite Z.min_l by lia. f_equal. lia.
    + rewrite Z.min_r by lia.
      rewrite !take_ge; [done | rewrite length_drop; lia | rewrite length_drop; lia].
Qed.

(** Claim C3. GET /api/books answers 200 with [total] the number N of
    filtered books and [count] the length of the page; without a limit the
    page is the whole filtered sequence; with limit L and offset O (0 when
    absent), both natural numbers, the page is the window [O, O+L) of the
    filtered sequence and has min(L, max(0, N-O)) items. *)
Theorem pagination_window (toNumber : string -> option Z) (query : Query.t)
    (w : World) :
  let filtered := applyFilters toNumber query (stored w) in
  let N := length filtered in
  exists page,
    get_api_books toNumber query w
    = (Return (mkResponse 200 (JPage page N (length page))), w)
    /\ (truthyString (Query.limit query) = false -> page = filtered)
    /\ (forall L O,
          truthyString (Query.limit query) = true ->
          parseParam (Query.limit query) = Some L ->
          default 0 (parseParam (Query.offset query)) = O ->
          0 <= L -> 0 <= O ->
          page = take (Z.to_nat L) (drop (Z.to_nat O) filtered)
          /\ Z.of_nat (length page)
             = Z.min L (Z.max 0 (Z.of_nat N - O))).
Proof.
  intros filtered N.
  exists (paginate query filtered). split_and!.
  - unfold get_api_books. reads. reflexivity.
  - intros Hno. unfold paginate. by rewrite Hno.
  - intros L O Hyes HL HO HL0 HO0. unfold paginate.
    rewrite Hyes, HL, HO. cbn [fmap option_fmap option_map].
    rewrite slice_window by done. split; [done|].
    rewrite length_take, length_drop. subst N. lia.
Qed.

(** ** Strings and validation *)

Section Strings.
Import JsString.

Lemma trimEnd_empty s : trimEnd s = "" <-> every isWhiteSpace s = true.
Proof.
  induction s as [|c s IH]; simpl; [done|].
  destruct (trimEnd s) eqn:E.
  - destruct (isWhiteSpace c); simpl; [tauto|]. split; discriminate.
  - split; [discriminate|]. intros [_ H]%andb_prop.
    apply IH in H. discriminate.
Qed.

Lemma trimStart_every s :
  every isWhiteSpace (trimStart s) = every isWhiteSpace s.
Proof.
  induction s as [|c s IH]; simpl; [done|].
  destruct (isWhiteSpace c) eqn:E; simpl; by rewrite ?E.
Qed.

Lemma trim_empty s : trim s = "" <-> every isWhiteSpace s = true.
Proof. unfold trim. by rewrite trimEnd_empty, trimStart_every. Qed.

Lemma length_zero s : (String.length s =? 0)%nat = String.eqb s "".
Proof. by destruct s. Qed.

Lemma isBlank_nonBlank v : isBlank v = negb (Rules.nonBlank v).
Proof.
  unfold isBlank, Rules.nonBlank, truthyString, str.
  destruct v as [s|]; simpl; [|done].
  rewrite negb_involutive, length_zero.
  destruct (every isWhiteSpace s) eqn:E.
  - apply trim_empty in E. rewrite E. apply orb_true_r.
  - destruct s; [done|]. simpl.
    apply String.eqb_neq. intros H%trim_empty. congruence.
Qed.

Lemma removeSpaceHyphen_digits s :
  every (fun c => isDigit c || Ascii.eqb c "-") (removeSpaceHyphen s)
  = every isDigit (removeSpaceHyphen s).
Proof.
  induction s as [|c s IH]; simpl; [done|].
  destruct (isWhiteSpace c); simpl; [done|].
  destruct (Ascii.eqb c "-") eqn:E; simpl; [done|].
  by rewrite E, orb_false_r, IH.
Qed.

Lemma isbnPattern_digits s :
  isbnPattern (removeSpaceHyphen s) = Rules.digits10to17 (removeSpaceHyphen s).
Proof.
  unfold isbnPattern, Rules.digits10to17. by rewrite removeSpaceHyphen_digits.
Qed.
End Strings.

Lemma year_rule currentYear v :
  truthyNumber v && ((default 0 v <? 1000) || (default 0 v >? currentYear))
  = negb (Rules.yearOk currentYear v).
Proof.
  unfold truthyNumber, Rules.yearOk, Rules.inRange.
  destruct v as [y|]; simpl; [|done].
  destruct (y =? 0), (y <? 1000) eqn:?, (y >? currentYear) eqn:?,
    (1000 <=? y) eqn:?, (y <=? currentYear) eqn:?; simpl; try done; lia.
Qed.

Lemma isbn_rule v :
  truthyString v
  && negb (JsString.isbnPattern (JsString.removeSpaceHyphen (str v)))
  = negb (Rules.isbnOk v).
Proof.
  unfold truthyString, Rules.isbnOk, str.
  destruct v as [s|]; simpl; [|done].
  rewrite isbnPattern_digits. by destruct (String.eqb s "").
Qed.

Lemma validateBook_messages currentYear book :
  validateBook currentYear book
  = Rules.messages (Rules.nonBlank (BookData.title book))
                   (Rules.nonBlank (BookData.author book))
                   (Rules.yearOk currentYear (BookData.year book))
                   (Rules.isbnOk (BookData.isbn book)).
Proof.
  unfold validateBook, Rules.messages.
  rewrite !isBlank_nonBlank, year_rule, isbn_rule.
  by destruct (Rules.nonBlank (BookData.title book)),
    (Rules.nonBlank (BookData.author book)),
    (Rules.yearOk currentYear (BookData.year book)),
    (Rules.isbnOk (BookData.isbn book)).
Qed.

(** Claim C2, amended. [validateBook] returns the messages of all the
    violated rules in the order title, author, year, ISBN, and so returns
    the empty list exactly when title and author are present and not blank,
    the year, if present and not zero, lies in [1000, currentYear], and the
    ISBN, if present and not empty, has 10 to 17 digits once white space and
    hyphens are removed. *)
Theorem validate_reports_every_violation (currentYear : Z) (book : BookData.t) :
  validateBook currentYear book
  = Rules.messages (Rules.nonBlank (BookData.title book))
                   (Rules.nonBlank (BookData.author book))
                   (Rules.yearOk currentYear (BookData.year book))
                   (Rules.isbnOk (BookData.isbn book))
  /\ (validateBook currentYear book = [] <-> Rules.acceptable currentYear book).
Proof.
  split; [apply validateBook_messages|].
  rewrite validateBook_messages. unfold Rules.messages, Rules.acceptable.
  destruct (Rules.nonBlank (BookData.title book)),
    (Rules.nonBlank (BookData.author book)),
    (Rules.yearOk currentYear (BookData.year book)),
    (Rules.isbnOk (BookData.isbn book)); simpl; split; try done;
    intros (?&?&?&?); done.
Qed.

(** Claim C2 as stated fails: a candidate whose year is 0, and one whose
    ISBN is the empty string, are accepted although the year is present and
    outside [1000, 2025] and the ISBN is present and has no digit. *)
Lemma validate_accepts_zero_year_and_empty_isbn :
  ~ (validateBook 2025
       (BookData.mk (Some "Dune") (Some "Frank Herbert") None (Some 0) None None)
     = []
     <-> Rules.acceptableIfPresent 2025
           (BookData.mk (Some "Dune") (Some "Frank Herbert") None (Some 0) None
                        None))
  /\ ~ (validateBook 2025
          (BookData.mk (Some "Dune") (Some "Frank Herbert") None None None
                       (Some ""))
        = []
        <-> Rules.acceptableIfPresent 2025
              (BookData.mk (Some "Dune") (Some "Frank Herbert") None None None
                           (Some ""))).
Proof.
  split; intros [H _]; specialize (H eq_refl); destruct H as (_&_&H1&H2);
    vm_compute in H1, H2; discriminate.
Qed.

(** ** Numbers and their text *)

Section Numbers.
Import JsString JsNumber.

Lemma append_String c s r : (String c s ++ r)%string = String c (s ++ r)%string.
Proof. reflexivity. Qed.

Lemma append_empty r : ("" ++ r)%string = r.
Proof. reflexivity. Qed.

Lemma isDigit_digitValue c :
  isDigit c = true -> digitValue c = Some (code c - 48) /\ code c - 48 < 10.
Proof.
  unfold isDigit, digitValue. intros H. rewrite H. split; [done|]. lia.
Qed.

Lemma radixDigits_stop c r : isDigit c = false -> radixDigits 10 (String c r) = [].
Proof.
  unfold isDigit, digitValue. simpl. unfold digitValue. intros H. rewrite H.
  destruct ((97 <=? code c) && (code c <=? 122)) eqn:E1.
  { destruct (code c - 87 <? 10) eqn:E2; [lia|done]. }
  destruct ((65 <=? code c) && (code c <=? 90)) eqn:E2; [|done].
  destruct (code c - 55 <? 10) eqn:E3; [lia|done].
Qed.

Lemma radixDigits_rest rest : leadingDigit rest = false -> radixDigits 10 rest = [].
Proof. destruct rest; [done|]. apply radixDigits_stop. Qed.

Lemma radixDigits_digit c r :
  isDigit c = true ->
  radixDigits 10 (String c r) = (code c - 48) :: radixDigits 10 r.
Proof.
  intros H. destruct (isDigit_digitValue c H) as [E Hlt].
  cbn [radixDigits]. rewrite E.
  destruct (code c - 48 <? 10) eqn:E2; [done|lia].
Qed.

Lemma digits_of_uint d rest acc :
  leadingDigit rest = false ->
  fold_left (fun a x => a * 10 + x)
    (radixDigits 10 (NilEmpty.string_of_uint d ++ rest)%string)
    (Z.of_N (Unsigned.of_lu acc))
  = Z.of_N (Unsigned.of_lu (Decimal.revapp d acc)).
Proof.
  intros Hrest. revert acc.
  induction d; intros acc; simpl NilEmpty.string_of_uint;
    rewrite ?append_String, ?append_empty; simpl Decimal.revapp;
    [by rewrite radixDigits_rest|..];
    rewrite radixDigits_digit by reflexivity;
    cbn [fold_left]; rewrite <- IHd; f_equal;
    cbn [Unsigned.of_lu]; vm_compute code; lia.
Qed.

Lemma digitsValue_uint d rest :
  leadingDigit rest = false ->
  digitsValue 10 (radixDigits 10 (NilEmpty.string_of_uint d ++ rest)%string)
  = Z.of_N (N.of_uint d).
Proof.
  intros Hrest. unfold digitsValue.
  change 0 with (Z.of_N (Unsigned.of_lu Decimal.Nil)).
  rewrite digits_of_uint by done.
  unfold N.of_uint. by rewrite Unsigned.of_uint_alt.
Qed.

Lemma to_uint_not_Nil m : N.to_uint m <> Decimal.Nil.
Proof.
  intros H. pose proof (DecimalN.Unsigned.of_to m) as E. rewrite H in E.
  simpl in E. subst m. discriminate.
Qed.

Lemma isDigit_not c d : isDigit d = false -> isDigit c = true -> Ascii.eqb c d = false.
Proof.
  intros Hd Hc. destruct (Ascii.eqb_spec c d); [congruence|done].
Qed.

Lemma isDigit_not_space c : isDigit c = true -> isWhiteSpace c = false.
Proof. unfold isDigit, isWhiteSpace. lia. Qed.

Lemma parseInt_unsigned s :
  leadingDigit s = true -> hexPrefix s = false ->
  parseInt s = Some (digitsValue 10 (radixDigits 10 s)).
Proof.
  destruct s as [|c r]; [done|]. cbn [leadingDigit]. intros Hc Hhex.
  unfold parseInt. cbn [trimStart]. rewrite (isDigit_not_space c Hc).
  rewrite (isDigit_not c "-"), (isDigit_not c "+") by done.
  replace (match String c r with
           | String c0 (String x r0) =>
               if Ascii.eqb c0 "0" && (Ascii.eqb x "x" || Ascii.eqb x "X")
               then (16, r0) else (10, String c r)
           | _ => (10, String c r)
           end) with (10, String c r).
  2: { destruct r as [|x r]; [done|]. cbn [hexPrefix] in Hhex. by rewrite Hhex. }
  rewrite radixDigits_digit by done. f_equal; lia.
Qed.

Lemma parseInt_negative s :
  leadingDigit s = true -> hexPrefix s = false ->
  parseInt (String "-" s) = Some (- digitsValue 10 (radixDigits 10 s)).
Proof.
  destruct s as [|c r]; [done|]. cbn [leadingDigit]. intros Hc Hhex.
  unfold parseInt. cbn [trimStart].
  change (isWhiteSpace "-") with false. cbv iota.
  change (Ascii.eqb "-" "-") with true. cbv iota.
  replace (match String c r with
           | String c0 (String x r0) =>
               if Ascii.eqb c0 "0" && (Ascii.eqb x "x" || Ascii.eqb x "X")
               then (16, r0) else (10, String c r)
           | _ => (10, String c r)
           end) with (10, String c r).
  2: { destruct r as [|x r]; [done|]. cbn [hexPrefix] in Hhex. by rewrite Hhex. }
  rewrite radixDigits_digit by done. f_equal; lia.
Qed.

Lemma radix_of_no_digit (u : string) :
  leadingDigit u = false ->
  match u with
  | String c (String x r) =>
      if Ascii.eqb c "0" && (Ascii.eqb x "x" || Ascii.eqb x "X")
      then (16, r) else (10, u)
  | _ => (10, u)
  end = (10, u).
Proof.
  destruct u as [|c [|x r]]; [done..|]. cbn [leadingDigit]. intros Hc.
  destruct (Ascii.eqb_spec c "0") as [->|]; [discriminate Hc|done].
Qed.

(** Without a decimal digit after the white space and the sign there is
    nothing to read: neither a decimal run nor a [0x] prefix. *)
Lemma parseInt_noLeadingInteger (s : string) :
  noLeadingInteger s = true -> parseInt s = None.
Proof.
  unfold noLeadingInteger, parseInt. intros H. apply negb_true_iff in H.
  destruct (trimStart s) as [|c r]; [done|].
  cbn [afterSign] in H.
  destruct (Ascii.eqb c "-"); cbn [orb] in H.
  { by rewrite radix_of_no_digit, radixDigits_rest. }
  destruct (Ascii.eqb c "+").
  { by rewrite radix_of_no_digit, radixDigits_rest. }
  pose proof (radix_of_no_digit (String c r) H) as E.
  cbv beta iota zeta in E |- *. rewrite E.
  by rewrite radixDigits_rest.
Qed.

Lemma uint_text d rest :
  d <> Decimal.Nil ->
  leadingDigit rest = false ->
  (N.of_uint d = 0%N -> leadingX rest = false) ->
  leadingDigit (NilEmpty.string_of_uint d ++ rest)%string = true
  /\ hexPrefix (NilEmpty.string_of_uint d ++ rest)%string = false.
Proof.
  intros Hd Hrest Hx.
  destruct d as [|d|d|d|d|d|d|d|d|d|d]; [done|..];
    simpl NilEmpty.string_of_uint; rewrite append_String;
    (split; [reflexivity|]);
    try (by destruct (NilEmpty.string_of_uint d ++ rest)%string).
  destruct d; simpl NilEmpty.string_of_uint;
    rewrite ?append_String, ?append_empty; try reflexivity.
  destruct rest as [|x rest]; [done|]. cbn [hexPrefix].
  specialize (Hx eq_refl). cbn [leadingX] in Hx. by rewrite Hx.
Qed.

Lemma parseInt_toString_then (n : Z) (rest : string) :
  leadingDigit rest = false ->
  (n = 0 -> leadingX rest = false) ->
  parseInt (toString n ++ rest)%string = Some n.
Proof.
  intros Hrest Hx. unfold toString.
  destruct (n <? 0) eqn:Hn.
  - set (m := Z.to_N (- n)).
    pose proof (to_uint_not_Nil m) as Hnil.
    assert (NilZero.string_of_uint (N.to_uint m)
            = NilEmpty.string_of_uint (N.to_uint m)) as ->
      by (by destruct (N.to_uint m)).
    destruct (uint_text (N.to_uint m) rest Hnil Hrest) as [H1 H2].
    { rewrite DecimalN.Unsigned.of_to. lia. }
    rewrite append_String, parseInt_negative by done.
    rewrite digitsValue_uint, DecimalN.Unsigned.of_to by done. f_equal. lia.
  - set (m := Z.to_N n).
    pose proof (to_uint_not_Nil m) as Hnil.
    assert (NilZero.string_of_uint (N.to_uint m)
            = NilEmpty.string_of_uint (N.to_uint m)) as ->
      by (by destruct (N.to_uint m)).
    destruct (uint_text (N.to_uint m) rest Hnil Hrest) as [H1 H2].
    { rewrite DecimalN.Unsigned.of_to. intros. apply Hx. lia. }
    rewrite parseInt_unsigned by done.
    rewrite digitsValue_uint, DecimalN.Unsigned.of_to by done. f_equal. lia.
Qed.

Lemma parseInt_toString (n : Z) : parseInt (toString n) = Some n.
Proof.
  rewrite <- (parseInt_toString_then n "") by done.
  f_equal. 
  assert (forall s, (s ++ "")%string = s) as H.
  { induction s as [|c s IH]; [done|]. by rewrite append_String, IH. }
  by rewrite H.
Qed.
End Numbers.

(** ** Creating and fetching *)

Lemma no_errors currentYear bookData :
  (0 <? length (validateBook currentYear bookData))%nat = false ->
  validateBook currentYear bookData = [].
Proof. destruct (validateBook _ _); [done|]. simpl. discriminate. Qed.

Lemma valid_has_title_author currentYear bookData :
  validateBook currentYear bookData = [] ->
  exists title author,
    BookData.title bookData = Some title
    /\ BookData.author bookData = Some author.
Proof.
  rewrite validateBook_messages. unfold Rules.messages.
  destruct (BookData.title bookData) as [t|], (BookData.author bookData) as [a|];
    simpl; try (by destruct (negb _)); eauto.
  all: by repeat destruct (negb _).
Qed.

Lemma fold_max_ge (ids : list Z) (n : Z) :
  n <= fold_left Z.max ids n
  /\ forall x, x ∈ ids -> x <= fold_left Z.max ids n.
Proof.
  revert n. induction ids as [|i ids IH]; intros n; simpl.
  - split; [lia|]. intros x Hx. by apply elem_of_nil in Hx.
  - destruct (IH (Z.max n i)) as [H1 H2]. split; [lia|].
    intros x [->|Hx]%elem_of_cons; [lia|]. by apply H2.
Qed.

Lemma generateId_fresh (books : list Book.t) (b : Book.t) :
  b ∈ books -> Book.id b < generateId books.
Proof.
  intros Hb. unfold generateId.
  assert (Book.id b ∈ Book.id <$> books) as Hid by (by apply list_elem_of_fmap_2).
  destruct (Book.id <$> books) as [|n ids]; [by apply elem_of_nil in Hid|].
  destruct (fold_max_ge ids n) as [H1 H2].
  apply elem_of_cons in Hid as [->|Hid]; [lia|].
  specialize (H2 _ Hid). lia.
Qed.

Lemma find_appended {A} (p : A -> bool) (l : list A) (x : A) :
  (forall y, y ∈ l -> p y = false) -> p x = true ->
  List.find p (l ++ [x]) = Some x.
Proof.
  intros Hl Hx. induction l as [|a l IH]; simpl.
  - by rewrite Hx.
  - rewrite (Hl a) by apply list_elem_of_here.
    apply IH. intros y Hy. apply Hl. by apply list_elem_of_further.
Qed.

Lemma post_api_books_created (w : World) (bookData : BookData.t) :
  validateBook (Date.getFullYear (clock w (ticks w))) bookData = [] ->
  List.find (fun b => sameTitleAuthor b bookData) (stored w) = None ->
  writable w = true ->
  let book := newBook (stored w) bookData (clock w (S (ticks w)))
                      (clock w (S (S (ticks w)))) in
  post_api_books bookData w
  = (Return (mkResponse 201 (JBook book)),
     mkWorld (Some (Stringified (stored w ++ [book]))) true
             (written w ++ [stored w ++ [book]]) (clock w)
             (S (S (S (ticks w))))).
Proof.
  intros Hvalid Hdup Hw book.
  unfold post_api_books, tryCatch, bind at 1, newDate.
  rewrite Hvalid. cbn [length Nat.ltb Nat.leb].
  erewrite bind_Return by apply readBooks_stored.
  cbv beta zeta. change (stored (mkWorld _ _ _ _ _)) with (stored w).
  rewrite Hdup.
  unfold bind, newDate, writeBooks, fs_writeFile, res_status_json, ret.
  cbn [writable file written clock ticks]. by rewrite Hw.
Qed.

(** Claim C4, amended. A candidate that passes validation and the
    duplicate check is created with status 201 (the disk being writable),
    and fetching the returned id gives back the created record: the
    candidate with title and author trimmed, genre defaulting to "Other", a
    zero or absent year as null, description and ISBN trimmed or empty,
    plus the assigned [id], [createdAt] and [updatedAt]. *)
Theorem create_then_fetch (w : World) (bookData : BookData.t) :
  validateBook (Date.getFullYear (clock w (ticks w))) bookData = [] ->
  List.find (fun b => sameTitleAuthor b bookData) (stored w) = None ->
  writable w = true ->
  exists (title author : string) (book : Book.t) (w' : World),
    BookData.title bookData = Some title
    /\ BookData.author bookData = Some author
    /\ post_api_books bookData w = (Return (mkResponse 201 (JBook book)), w')
    /\ book = Book.mk (generateId (stored w))
                      (JsString.trim title)
                      (JsString.trim author)
                      (orString (BookData.genre bookData) "Other")
                      (orNull (BookData.year bookData))
                      (trimOrEmpty (BookData.description bookData))
                      (trimOrEmpty (BookData.isbn bookData))
                      (Date.toISOString (clock w (S (ticks w))))
                      (Date.toISOString (clock w (S (S (ticks w)))))
    /\ get_api_books_id (JsNumber.toString (Book.id book)) w'
       = (Return (mkResponse 200 (JBook book)), w').
Proof.
  intros Hvalid Hdup Hw.
  destruct (valid_has_title_author _ _ Hvalid) as (title & author & Ht & Ha).
  exists title, author. do 2 eexists.
  split_and!; [done|done|by apply post_api_books_created|..].
  - unfold newBook. by rewrite Ht, Ha.
  - unfold get_api_books_id. reads. cbv beta zeta.
    change (stored (mkWorld (Some (Stringified ?l)) _ _ _ _)) with l.
    rewrite parseInt_toString.
    rewrite find_appended; [done| |].
    + intros y Hy. cbn [strictEq newBook Book.id].
      apply Z.eqb_neq. pose proof (generateId_fresh _ _ Hy). lia.
    + cbn [strictEq]. apply Z.eqb_refl.
Qed.

(** Claim C4 as stated fails: the record fetched after creating a
    candidate with the title " Dune" has the title "Dune", so it is not
    equal to the input. *)
Lemma create_then_fetch_trims :
  exists (book : Book.t) (w' : World),
    post_api_books paddedDune (emptyStore noon)
    = (Return (mkResponse 201 (JBook book)), w')
    /\ get_api_books_id (JsNumber.toString (Book.id book)) w'
       = (Return (mkResponse 200 (JBook book)), w')
    /\ ~ equalsInput book paddedDune.
Proof.
  do 2 eexists. split_and!.
  - vm_compute. reflexivity.
  - vm_compute. reflexivity.
  - intros (H & _). discriminate H.
Qed.

(** ** Statistics *)

Lemma increment_lookup key obj label :
  increment key obj !! label
  = if decide (key = label) then Some (default 0%nat (obj !! label) + 1)%nat
    else obj !! label.
Proof.
  unfold increment. rewrite lookup_insert. by destruct (decide (key = label)) as [->|].
Qed.

Lemma countDecades_fold (books : list Book.t) (dist : gmap string nat) label :
  fold_left
    (fun dist book =>
       if truthyNumber (Book.year book)
       then increment (decadeLabel (default 0 (Book.year book))) dist
       else dist)
    books dist !! label
  = match length (List.filter (inDecade label) books) with
    | O => dist !! label
    | S n => Some (default 0%nat (dist !! label) + S n)%nat
    end.
Proof.
  revert dist. induction books as [|b books IH]; intros dist; [done|].
  cbn [fold_left List.filter]. rewrite IH. unfold inDecade at 2.
  destruct (truthyNumber (Book.year b)); cbn [andb]; [|done].
  rewrite increment_lookup.
  destruct (decide _) as [->|Hne].
  - rewrite String.eqb_refl. cbn [length default from_option id].
    destruct (length _); f_equal; lia.
  - apply String.eqb_neq in Hne. by rewrite Hne.
Qed.

Lemma countDecades_lookup (books : list Book.t) label :
  countDecades books !! label
  = entry (length (List.filter (inDecade label) books)).
Proof.
  unfold countDecades. rewrite countDecades_fold, lookup_empty.
  unfold entry. by destruct (length _).
Qed.

Lemma sortInsert_perm {A} (le : A -> A -> bool) x l :
  sortInsert le x l ≡ₚ x :: l.
Proof.
  induction l as [|y l IH]; simpl; [done|].
  destruct (le x y); [done|]. rewrite IH. apply Permutation_swap.
Qed.

Lemma Array_sort_perm {A} (le : A -> A -> bool) l : Array_sort le l ≡ₚ l.
Proof.
  induction l as [|x l IH]; simpl; [done|].
  unfold Array_sort in *. simpl. by rewrite sortInsert_perm, IH.
Qed.

Lemma filter_length_perm {A} (p : A -> bool) (l l' : list A) :
  l ≡ₚ l' -> length (List.filter p l) = length (List.filter p l').
Proof.
  induction 1 as [|x l l' _ IH|x y l|l l' l'' _ IH1 _ IH2]; simpl.
  - done.
  - destruct (p x); simpl; by rewrite IH.
  - by destruct (p x), (p y).
  - by rewrite IH1.
Qed.

Lemma countDecades_perm (l l' : list Book.t) :
  l ≡ₚ l' -> countDecades l = countDecades l'.
Proof.
  intros H. apply map_eq. intros k. rewrite !countDecades_lookup.
  by rewrite (filter_length_perm _ _ _ H).
Qed.

Lemma initialize_seeds (w : World) :
  file w = None -> writable w = true ->
  exists d1 d2 d3 d4 d5 d6 d7 d8,
    stored (snd (initializeBooksData w)) = sampleBooks d1 d2 d3 d4 d5 d6 d7 d8.
Proof.
  intros Hf Hw. unfold initializeBooksData, tryCatch, fs_access. rewrite Hf.
  unfold bind, newDate, fs_writeFile. cbn [writable file clock ticks written].
  rewrite Hw. unfold stored. cbn [snd file]. eauto 10.
Qed.

(** Claim C8. After start-up on a missing file, GET /api/stats reports 4
    books, 4 authors, 3 genres and one book in each of the decades 1940s,
    1810s, 1920s, 1960s; every label of [yearDistribution] counts the
    stored books with a truthy year in that decade. *)
Theorem seed_statistics (w : World) :
  file w = None -> writable w = true ->
  let seeded := snd (initializeBooksData w) in
  exists stats : Stats.t,
    get_api_stats seeded = (Return (mkResponse 200 (JStats stats)), seeded)
    /\ Stats.totalBooks stats = 4%nat
    /\ Stats.totalAuthors stats = 4%nat
    /\ Stats.totalGenres stats = 3%nat
    /\ Stats.yearDistribution stats
       = {[ "1940s" := 1%nat; "1810s" := 1%nat; "1920s" := 1%nat;
            "1960s" := 1%nat ]}
    /\ forall label,
         Stats.yearDistribution stats !! label
         = entry (length (List.filter (inDecade label) (stored seeded))).
Proof.
  intros Hf Hw seeded.
  destruct (initialize_seeds w Hf Hw) as (d1&d2&d3&d4&d5&d6&d7&d8&Hseed).
  fold seeded in Hseed.
  eexists. split; [unfold get_api_stats; reads; reflexivity|].
  cbn [Stats.totalBooks Stats.totalAuthors Stats.totalGenres Stats.yearDistribution].
  rewrite Hseed. split_and!.
  - reflexivity.
  - vm_compute. reflexivity.
  - vm_compute. reflexivity.
  - rewrite (countDecades_perm _ _ (Array_sort_perm _ _)).
    vm_compute. reflexivity.
  - intros label. rewrite countDecades_lookup.
    by rewrite (filter_length_perm _ _ _ (Array_sort_perm newestFirst _)).
Qed.

(** ** Duplicates and id segments *)

Lemma uniquePairs_one (b : Book.t) : uniquePairs [b].
Proof.
  intros i j x y Hi Hj _.
  apply lookup_lt_Some in Hi, Hj. simpl in Hi, Hj. lia.
Qed.

(** Claim C1, the code at the failing input. From the empty store, creating
    "1984" by George Orwell and then " 1984" (with a leading space) by the
    same author succeeds twice: the search compares the title as sent, the
    record stores it trimmed, and the collection ends with the same pair
    twice. *)
Theorem create_admits_padded_duplicate (clock : nat -> Date.t) :
  exists (r1 r2 : Response) (w1 w2 : World),
    post_api_books (candidate "1984" "George Orwell") (emptyStore clock)
    = (Return r1, w1)
    /\ status r1 = 201
    /\ uniquePairs (stored w1)
    /\ post_api_books (candidate " 1984" "George Orwell") w1 = (Return r2, w2)
    /\ status r2 = 201
    /\ ~ uniquePairs (stored w2).
Proof.
  do 4 eexists. split_and!.
  - vm_compute. reflexivity.
  - reflexivity.
  - apply uniquePairs_one.
  - vm_compute. reflexivity.
  - reflexivity.
  - intros H. unfold stored in H. cbn [file] in H.
    specialize (H 0%nat 1%nat _ _ eq_refl eq_refl).
    assert (0%nat = 1%nat); [|discriminate].
    apply H. split; reflexivity.
Qed.

(** Claim C5, the code at the failing input. A batch of three candidates
    whose second has no title and whose third repeats the first, " Dune" by
    Frank Herbert, yields two successes and one error (index 1): the third
    entry is not recognised as a duplicate of the first. *)
Theorem bulk_admits_padded_duplicate (clock : nat -> Date.t) :
  exists (results : Results.t) (w' : World),
    post_api_books_bulk
      (Some [candidate " Dune" "Frank Herbert";
             candidate "" "Frank Herbert";
             candidate " Dune" "Frank Herbert"])
      (emptyStore clock)
    = (Return (mkResponse 201 (JResults results)), w')
    /\ length (Results.success results) = 2%nat
    /\ BulkError.index <$> Results.errors results = [1%nat]
    /\ ~ uniquePairs (stored w').
Proof.
  do 2 eexists. split_and!.
  - vm_compute. reflexivity.
  - reflexivity.
  - reflexivity.
  - intros H. unfold stored in H. cbn [file] in H.
    specialize (H 0%nat 1%nat _ _ eq_refl eq_refl).
    assert (0%nat = 1%nat); [|discriminate].
    apply H. split; reflexivity.
Qed.

Lemma findIndex_never {A} (p : A -> bool) (l : list A) :
  (forall x, p x = false) -> findIndex p l = None.
Proof.
  intros H. induction l as [|x l IH]; [done|].
  cbn [findIndex]. by rewrite H, IH.
Qed.

Lemma find_never {A} (p : A -> bool) (l : list A) :
  (forall x, p x = false) -> List.find p l = None.
Proof.
  intros H. induction l as [|x l IH]; [done|].
  cbn [List.find]. by rewrite H.
Qed.

(** Claim C10, amended. A path segment made of the decimal text of an
    integer followed by characters that do not continue it (no digit, and
    no [x] after a lone 0, which would start a hexadecimal literal) denotes
    that integer; the handlers depend on the segment only through
    [parseInt]; every segment in which no decimal digit follows the leading
    white space and the optional sign parses to [NaN]; and a segment that
    parses to [NaN] matches no book: GET and DELETE answer 404, and PUT,
    for a body of the data model, answers 404 when the body passes
    validation and 400 with the validation errors otherwise, the file and
    the log of writes being as they were. *)
Theorem id_segment_parseInt :
  (forall (n : Z) (rest : string),
      JsNumber.leadingDigit rest = false ->
      (n = 0 -> JsNumber.leadingX rest = false) ->
      JsNumber.parseInt (JsNumber.toString n ++ rest)%string = Some n)
  /\ (forall (id id' : string) (bookData : BookData.t),
        JsNumber.parseInt id = JsNumber.parseInt id' ->
        get_api_books_id id = get_api_books_id id'
        /\ put_api_books_id id bookData = put_api_books_id id' bookData
        /\ delete_api_books_id id = delete_api_books_id id')
  /\ (forall id : string,
        JsNumber.noLeadingInteger id = true -> JsNumber.parseInt id = None)
  /\ (forall (id : string) (bookData : BookData.t) (w : World),
        JsNumber.parseInt id = None ->
        get_api_books_id id w
        = (Return (mkResponse 404 (JError "Book not found")), w)
        /\ delete_api_books_id id w
           = (Return (mkResponse 404 (JError "Book not found")), w)
        /\ exists w',
             put_api_books_id id bookData w
             = (Return
                  match validateBook (Date.getFullYear (clock w (ticks w)))
                                     bookData with
                  | [] => mkResponse 404 (JError "Book not found")
                  | errors => mkResponse 400 (JErrors errors)
                  end,
                w')
             /\ file w' = file w /\ written w' = written w).
Proof.
  split_and!.
  - apply parseInt_toString_then.
  - intros id id' bookData H.
    unfold get_api_books_id, put_api_books_id, delete_api_books_id.
    by rewrite H.
  - apply parseInt_noLeadingInteger.
  - intros id bookData w H.
    split_and!.
    + unfold get_api_books_id. reads. by rewrite H, find_never.
    + unfold delete_api_books_id. reads. by rewrite H, findIndex_never.
    + exists (tick w). split; [|done].
      unfold put_api_books_id, tryCatch, bind at 1, newDate. fold (tick w).
      destruct (validateBook _ _) as [|e errors] eqn:Hv; cbn [length Nat.ltb Nat.leb].
      * erewrite bind_Return by apply readBooks_stored.
        by rewrite H, findIndex_never.
      * reflexivity.
Qed.

(** Claim C10 as stated fails: PUT on the segment "abc" with a body that has
    no title answers 400, not 404; and the segment "0x1F", a 0 followed by
    other characters, denotes 31. *)
Lemma put_invalid_body_400_and_hex_segment :
  JsNumber.parseInt "abc" = None
  /\ fst (put_api_books_id "abc" (candidate "" "Frank Herbert")
            (emptyStore noon))
     = Return (mkResponse 400 (JErrors ["Title is required"]))
  /\ JsNumber.parseInt "0x1F" = Some 31.
Proof. vm_compute. done. Qed.

(** The update handler has the same comparison: renaming "Animal Farm" to
    " 1984" next to a stored "1984" by the same author answers 200. *)
Example update_admits_padded_duplicate :
  exists (r : Response) (w' : World),
    put_api_books_id "2" (candidate " 1984" "George Orwell")
      (mkWorld (Some (Stringified
                        [Book.mk 1 "1984" "George Orwell" "Other" None "" "" 5 5;
                         Book.mk 2 "Animal Farm" "George Orwell" "Other" None
                                 "" "" 6 6]))
               true [] noon 0)
    = (Return r, w')
    /\ status r = 200
    /\ Book.title <$> stored w' = ["1984"; "1984"]
    /\ Book.author <$> stored w' = ["George Orwell"; "George Orwell"].
Proof. do 2 eexists. split_and!; [vm_compute; reflexivity | done..]. Qed.

(** ** What the duplicate check does guarantee *)

Lemma find_none_all {A} (p : A -> bool) (l : list A) :
  List.find p l = None -> forall x, x ∈ l -> p x = false.
Proof.
  intros H x Hx. apply list_elem_of_In in Hx. by eapply List.find_none.
Qed.

Lemma post_api_books_outcome (w w' : World) (bookData : BookData.t) (r : Response) :
  post_api_books bookData w = (Return r, w') ->
  (status r <> 201 /\ stored w' = stored w)
  \/ (status r = 201
      /\ List.find (fun b => sameTitleAuthor b bookData) (stored w) = None
      /\ stored w'
         = stored w ++ [newBook (stored w) bookData (clock w (S (ticks w)))
                                (clock w (S (S (ticks w))))]).
Proof.
  unfold post_api_books, tryCatch, bind at 1, newDate.
  destruct (0 <? length (validateBook _ _))%nat eqn:Hv.
  { intros [= <- <-]. by left. }
  erewrite bind_Return by apply readBooks_stored.
  cbv beta zeta. change (stored (mkWorld _ _ _ _ _)) with (stored w).
  destruct (List.find _ _) eqn:Hdup.
  { intros [= <- <-]. by left. }
  unfold bind, newDate, writeBooks, fs_writeFile, res_status_json, ret.
  cbn [writable file written clock ticks].
  destruct (writable w); intros [= <- <-]; [by right | by left].
Qed.

(** Property X10. A create whose candidate matches a stored pair is
    answered with 400; the file is left as it was and no write is
    attempted. *)
Lemma create_rejects_match (w : World) (bookData : BookData.t) (b : Book.t) :
  b ∈ stored w -> sameTitleAuthor b bookData = true ->
  exists r w',
    post_api_books bookData w = (Return r, w')
    /\ status r = 400 /\ file w' = file w /\ written w' = written w.
Proof.
  intros Hb Hsame.
  unfold post_api_books, tryCatch, bind at 1, newDate. fold (tick w).
  destruct (0 <? length (validateBook _ _))%nat; [by do 2 eexists|].
  erewrite bind_Return by apply readBooks_stored.
  cbv beta zeta. change (stored (tick w)) with (stored w).
  destruct (List.find _ _) eqn:Hdup; [by do 2 eexists|].
  rewrite (find_none_all _ _ Hdup b Hb) in Hsame. discriminate.
Qed.

(** When the candidate's title and author carry no surrounding white
    space, a create keeps the pairs of the collection distinct. *)
Lemma create_keeps_uniquePairs (w w' : World) (bookData : BookData.t)
    (r : Response) :
  JsString.trim (str (BookData.title bookData)) = str (BookData.title bookData) ->
  JsString.trim (str (BookData.author bookData)) = str (BookData.author bookData) ->
  uniquePairs (stored w) ->
  post_api_books bookData w = (Return r, w') ->
  uniquePairs (stored w').
Proof.
  intros Ht Ha Huniq Hpost.
  destruct (post_api_books_outcome _ _ _ _ Hpost) as [[_ ->]|(_ & Hdup & ->)];
    [done|].
  set (new := newBook _ _ _ _).
  assert (forall a, a ∈ stored w -> ~ samePair a new) as Hfresh.
  { intros a Hin [H1 H2].
    pose proof (find_none_all _ _ Hdup a Hin) as Hno.
    unfold sameTitleAuthor in Hno. subst new. cbn [newBook Book.title Book.author] in H1, H2.
    rewrite Ht in H1. rewrite Ha in H2. rewrite H1, H2, !String.eqb_refl in Hno.
    discriminate. }
  intros i j a b Hi Hj Hsame.
  destruct (decide (i < length (stored w))%nat) as [Hil|Hil],
           (decide (j < length (stored w))%nat) as [Hjl|Hjl].
  - rewrite lookup_app_l in Hi, Hj by done. by eapply Huniq.
  - rewrite lookup_app_l in Hi by done.
    rewrite lookup_app_r in Hj by lia.
    apply list_lookup_singleton_Some in Hj as [_ <-].
    exfalso. eapply Hfresh; [|done]. by eapply list_elem_of_lookup_2.
  - rewrite lookup_app_l in Hj by done.
    rewrite lookup_app_r in Hi by lia.
    apply list_lookup_singleton_Some in Hi as [_ <-].
    exfalso. eapply (Hfresh b); [by eapply list_elem_of_lookup_2|].
    destruct Hsame. by split.
  - apply lookup_lt_Some in Hi, Hj. rewrite length_app in Hi, Hj.
    simpl in Hi, Hj. lia.
Qed.

(** ** The bulk loop *)

(** The loop always finishes; it appends the created books to the
    collection and to [success], tags every error with the index of its
    candidate, and touches neither the file nor the log of writes. *)
Lemma bulkLoop_returns (booksData : list BookData.t) :
  forall (i : nat) (books : list Book.t) (results : Results.t) (w : World),
  exists (added : list Book.t) (failed : list BulkError.t) (w' : World),
    bulkLoop booksData i books results w
    = (Return (books ++ added,
               Results.mk (Results.success results ++ added)
                          (Results.errors results ++ failed)),
       w')
    /\ file w' = file w /\ writable w' = writable w /\ written w' = written w
    /\ (length added + length failed = length booksData)%nat
    /\ Forall (fun e => (i <= BulkError.index e < i + length booksData)%nat)
              failed.
Proof.
  induction booksData as [|bookData rest IH]; intros i books results w.
  - exists [], [], w. cbn [bulkLoop ret]. rewrite !app_nil_r.
    destruct results. by split_and!.
  - cbn [bulkLoop]. unfold bind at 1, newDate. fold (tick w).
    destruct (0 <? length (validateBook _ _))%nat.
    { destruct (IH (S i) books
                  (Results.mk (Results.success results)
                     (Results.errors results
                      ++ [BulkError.mk i
                            (validateBook (Date.getFullYear (clock w (ticks w)))
                                          bookData)]))
                  (tick w))
        as (added & failed & w' & Hrun & Hf & Hw & Hlog & Hlen & Hidx).
      exists added, (BulkError.mk i (validateBook (Date.getFullYear (clock w (ticks w))) bookData) :: failed), w'.
      rewrite Hrun. cbn [Results.success Results.errors].
      rewrite <- app_assoc. split_and!; try done.
      - cbn [length]. lia.
      - constructor; [cbn; lia|].
        eapply Forall_impl; [exact Hidx|]. cbn. intros; lia. }
    destruct (List.find _ _).
    { destruct (IH (S i) books
                  (Results.mk (Results.success results)
                     (Results.errors results
                      ++ [BulkError.mk i
                            ["Book with same title and author already exists"]]))
                  (tick w))
        as (added & failed & w' & Hrun & Hf & Hw & Hlog & Hlen & Hidx).
      exists added, (BulkError.mk i ["Book with same title and author already exists"] :: failed), w'.
      rewrite Hrun. cbn [Results.success Results.errors].
      rewrite <- app_assoc. split_and!; try done.
      - cbn [length]. lia.
      - constructor; [cbn; lia|].
        eapply Forall_impl; [exact Hidx|]. cbn. intros; lia. }
    unfold bind at 1, newDate. fold (tick (tick w)).
    unfold bind at 1, newDate. fold (tick (tick (tick w))).
    cbv beta zeta. cbn [clock ticks tick].
    set (new := newBook _ _ _ _).
    destruct (IH (S i) (books ++ [new])
                (Results.mk (Results.success results ++ [new])
                            (Results.errors results))
                (tick (tick (tick w))))
      as (added & failed & w' & Hrun & Hf & Hw & Hlog & Hlen & Hidx).
    exists (new :: added), failed, w'.
    unfold tick in *. cbn [file writable written clock ticks] in *.
    rewrite Hrun. cbn [Results.success Results.errors].
    rewrite <- !app_assoc. split_and!; try done.
    + cbn [length]. lia.
    + eapply Forall_impl; [exact Hidx|]. cbn. intros; lia.
Qed.

(** Property X11. The bulk handler writes once when a candidate was created and not at
    all otherwise, and answers 201 whenever the write, if any, went
    through. *)
Lemma bulk_writes_once (booksData : list BookData.t) (w : World) :
  exists (results : Results.t) (r : Response) (w' : World),
    post_api_books_bulk (Some booksData) w = (Return r, w')
    /\ (length (Results.success results) + length (Results.errors results)
        = length booksData)%nat
    /\ Forall (fun e => (BulkError.index e < length booksData)%nat)
              (Results.errors results)
    /\ match Results.success results with
       | [] => written w' = written w
               /\ r = mkResponse 201 (JResults results)
       | _ :: _ =>
           written w' = written w ++ [stored w ++ Results.success results]
           /\ (writable w = true -> r = mkResponse 201 (JResults results))
       end.
Proof.
  destruct (bulkLoop_returns booksData 0 (stored w) (Results.mk [] []) w)
    as (added & failed & w1 & Hrun & Hf & Hw & Hlog & Hlen & Hidx).
  cbn [Results.success Results.errors app] in Hrun.
  assert (Forall (fun e => (BulkError.index e < length booksData)%nat) failed)
    as Hidx' by (eapply Forall_impl; [exact Hidx|]; cbn; intros; lia).
  unfold post_api_books_bulk, tryCatch.
  erewrite bind_Return by apply readBooks_stored.
  erewrite bind_Return by exact Hrun. cbv beta zeta iota.
  cbn [Results.success].
  destruct added as [|a added].
  - exists (Results.mk [] failed). do 2 eexists.
    cbn [length Nat.ltb Nat.leb Results.success Results.errors].
    unfold res_status_json, ret. split_and!; try done.
  - exists (Results.mk (a :: added) failed).
    cbn [length Nat.ltb Nat.leb Results.success Results.errors].
    unfold bind, writeBooks, fs_writeFile, res_status_json, ret.
    destruct (writable w1) eqn:Hw1; do 2 eexists;
      (split; [reflexivity|]); cbn [written]; rewrite Hlog;
      split_and!; try done; intros; congruence.
Qed.

(** ** The theorems at concrete inputs *)

(** Claim C2 at a concrete input: a candidate with a title and an author
    only is accepted. *)
Lemma validate_reports_every_violation_witness :
  validateBook 2025 (candidate "Dune" "Frank Herbert") = [].
Proof.
  apply (validate_reports_every_violation 2025 (candidate "Dune" "Frank Herbert")).
  repeat split; reflexivity.
Defined.

(** Claim C3 at a concrete input: limit "1" and an unparsable offset over
    one stored book give that book. *)
Lemma pagination_window_witness :
  exists page,
    get_api_books noNumber
      (Query.mk None None None None (Some "1") (Some "0x")) oneBook
    = (Return (mkResponse 200 (JPage page 1 (length page))), oneBook)
    /\ page = [animalFarm].
Proof.
  destruct (pagination_window noNumber
              (Query.mk None None None None (Some "1") (Some "0x")) oneBook)
    as (page & Hget & _ & Hlimit).
  destruct (Hlimit 1 0 eq_refl eq_refl eq_refl ltac:(lia) ltac:(lia))
    as [Hpage _].
  exists page. split; [exact Hget | exact Hpage].
Defined.

(** Claim C6 at a concrete input: PUT on the segment "1abc" keeps the id 1
    and the creation time 5 of the stored book. *)
Lemma update_keeps_id_createdAt_witness :
  exists (w' : World) (new : Book.t),
    stored w' = [new] /\ Book.id new = 1 /\ Book.createdAt new = 5.
Proof.
  pose (run := put_api_books_id "1abc" (candidate "Animal Farm " "George Orwell") oneBook).
  destruct (update_keeps_id_createdAt oneBook (snd run) "1abc"
              (candidate "Animal Farm " "George Orwell")
              (match fst run with
               | Return r => r
               | Throw => mkResponse 0 (JError "")
               end))
    as (i & old & new & Hold & _ & _ & Hnew & _ & Hid & Hcreated & _).
  - vm_compute. reflexivity.
  - reflexivity.
  - destruct i as [|i]; [|discriminate Hold].
    injection Hold as <-.
    exists (snd run), new. split; [exact Hnew|]. split; [exact Hid | exact Hcreated].
Defined.

(** Claim C7 at a concrete input: with no backing file [readBooks] returns
    the empty array. *)
Lemma readBooks_never_fails_witness :
  readBooks (emptyStore noon) = (Return [], emptyStore noon).
Proof.
  destruct (readBooks_never_fails (emptyStore noon)) as (books & Hread & Hnone & _).
  rewrite <- (Hnone eq_refl). exact Hread.
Defined.

(** Claim C8 at a concrete input: the statistics of the store seeded from
    the empty world. *)
Lemma seed_statistics_witness :
  exists stats : Stats.t,
    Stats.totalBooks stats = 4%nat
    /\ Stats.yearDistribution stats !! "1960s" = Some 1%nat.
Proof.
  destruct (seed_statistics (emptyStore noon) eq_refl eq_refl)
    as (stats & _ & Htotal & _ & _ & Hyears & _).
  exists stats. split; [exact Htotal|]. rewrite Hyears. reflexivity.
Defined.

(** Claim C4 at a concrete input: " Dune" is created as "Dune" with id 2 and
    fetched back through the segment "2". *)
Lemma create_then_fetch_witness :
  exists (book : Book.t) (w' : World),
    post_api_books (candidate " Dune" "Frank Herbert") oneBook
    = (Return (mkResponse 201 (JBook book)), w')
    /\ Book.title book = "Dune"
    /\ get_api_books_id "2" w' = (Return (mkResponse 200 (JBook book)), w').
Proof.
  destruct (create_then_fetch oneBook (candidate " Dune" "Frank Herbert")
              eq_refl eq_refl eq_refl)
    as (title & author & book & w' & Ht & _ & Hpost & -> & Hget).
  injection Ht as <-.
  eexists _, w'. split; [exact Hpost|]. split; [reflexivity | exact Hget].
Defined.

(** Claim C10 at a concrete input: "3abc" denotes 3; " -abc" has no digit
    after its white space and sign, so it parses to [NaN] and GET on it
    answers 404. *)
Lemma id_segment_parseInt_witness :
  JsNumber.parseInt "3abc" = Some 3
  /\ JsNumber.parseInt " -abc" = None
  /\ get_api_books_id " -abc" oneBook
     = (Return (mkResponse 404 (JError "Book not found")), oneBook).
Proof.
  destruct id_segment_parseInt as (Hlead & _ & Hnone & Hnan).
  split_and!.
  - exact (Hlead 3 "abc" eq_refl (fun _ => eq_refl)).
  - exact (Hnone " -abc" eq_refl).
  - exact (proj1 (Hnan " -abc" (candidate "" "") oneBook
                    (Hnone " -abc" eq_refl))).
Defined.

(** * Further properties of the server *)

(** ** The handlers case by case *)

Lemma post_api_books_cases (w : World) (bookData : BookData.t) :
  post_api_books bookData w
  = match validateBook (Date.getFullYear (clock w (ticks w))) bookData with
    | (_ :: _) as errors => (Return (mkResponse 400 (JErrors errors)), tick w)
    | [] =>
        match List.find (fun b => sameTitleAuthor b bookData) (stored w) with
        | Some _ =>
            (Return (mkResponse 400
                       (JError "Book with same title and author already exists")),
             tick w)
        | None =>
            let book := newBook (stored w) bookData (clock w (S (ticks w)))
                                (clock w (S (S (ticks w)))) in
            (Return (if writable w then mkResponse 201 (JBook book)
                     else mkResponse 500 (JError "Failed to create book")),
             afterWrite w 3 (stored w ++ [book]))
        end
    end.
Proof.
  unfold post_api_books, tryCatch, bind at 1, newDate. fold (tick w).
  destruct (validateBook _ _) as [|e errors]; cbn [length Nat.ltb Nat.leb];
    [|reflexivity].
  erewrite bind_Return by apply readBooks_stored.
  cbv beta zeta. change (stored (tick w)) with (stored w).
  destruct (List.find _ _); [reflexivity|].
  unfold bind, newDate, writeBooks, fs_writeFile, res_status_json, ret, afterWrite, tick.
  cbn [writable file written clock ticks].
  by destruct (writable w).
Qed.

Lemma put_api_books_id_cases (w : World) (id : string) (bookData : BookData.t) :
  put_api_books_id id bookData w
  = match validateBook (Date.getFullYear (clock w (ticks w))) bookData with
    | (_ :: _) as errors => (Return (mkResponse 400 (JErrors errors)), tick w)
    | [] =>
        match findIndex (fun b => strictEq (Book.id b) (JsNumber.parseInt id))
                        (stored w) with
        | None => (Return (mkResponse 404 (JError "Book not found")), tick w)
        | Some i =>
            match List.find
                    (fun b => negb (strictEq (Book.id b) (JsNumber.parseInt id))
                              && sameTitleAuthor b bookData) (stored w),
                  stored w !! i with
            | Some _, _ =>
                (Return (mkResponse 400
                           (JError "Book with same title and author already exists")),
                 tick w)
            | None, None =>
                (Return (mkResponse 500 (JError "Failed to update book")), tick w)
            | None, Some old =>
                let book := updatedBook old bookData (clock w (S (ticks w))) in
                (Return (if writable w then mkResponse 200 (JBook book)
                         else mkResponse 500 (JError "Failed to update book")),
                 afterWrite w 2 (<[i := book]> (stored w)))
            end
        end
    end.
Proof.
  unfold put_api_books_id, tryCatch, bind at 1, newDate. fold (tick w).
  destruct (validateBook _ _) as [|e errors]; cbn [length Nat.ltb Nat.leb];
    [|reflexivity].
  erewrite bind_Return by apply readBooks_stored.
  cbv beta zeta. change (stored (tick w)) with (stored w).
  destruct (findIndex _ _) as [i|]; [|reflexivity].
  destruct (List.find _ _); [reflexivity|].
  destruct (stored w !! i); [|reflexivity].
  unfold bind, newDate, writeBooks, fs_writeFile, res_json, res_status_json, ret,
    afterWrite, tick.
  cbn [writable file written clock ticks].
  by destruct (writable w).
Qed.

Lemma delete_api_books_id_cases (w : World) (id : string) :
  delete_api_books_id id w
  = match findIndex (fun b => strictEq (Book.id b) (JsNumber.parseInt id))
                    (stored w) with
    | None => (Return (mkResponse 404 (JError "Book not found")), w)
    | Some i =>
        match stored w !! i with
        | None => (Return (mkResponse 500 (JError "Failed to delete book")), w)
        | Some book =>
            (Return (if writable w
                     then mkResponse 200 (JDeleted "Book deleted successfully" book)
                     else mkResponse 500 (JError "Failed to delete book")),
             afterWrite w 0 (delete i (stored w)))
        end
    end.
Proof.
  unfold delete_api_books_id. reads. cbv beta zeta.
  destruct (findIndex _ _) as [i|]; [|reflexivity].
  destruct (stored w !! i); [|reflexivity].
  unfold bind, writeBooks, fs_writeFile, res_json, res_status_json, ret, afterWrite.
  by destruct (writable w).
Qed.

Lemma stored_afterWrite w n books :
  stored (afterWrite w n books) = if writable w then books else stored w.
Proof. unfold stored, afterWrite. cbn [file]. by destruct (writable w). Qed.

Lemma uniqueIds_newBook books bookData created updated :
  uniqueIds books -> uniqueIds (books ++ [newBook books bookData created updated]).
Proof.
  unfold uniqueIds. intros H. rewrite fmap_app. apply NoDup_app.
  split_and!; [done| |apply NoDup_singleton].
  intros x Hx ->%list_elem_of_singleton.
  apply list_elem_of_fmap in Hx as (b & Hid & Hb).
  pose proof (generateId_fresh _ _ Hb). cbn [newBook Book.id] in Hid. lia.
Qed.

(** Whatever holds of the collection and survives one more created book
    holds after the loop; [Q] is what is known of every candidate. *)
Lemma bulkLoop_invariant (P : list Book.t -> Prop) (Q : BookData.t -> Prop) :
  (forall books bookData currentYear created updated,
      Q bookData -> P books -> validateBook currentYear bookData = [] ->
      List.find (fun b => sameTitleAuthor b bookData) books = None ->
      P (books ++ [newBook books bookData created updated])) ->
  forall booksData i books results w books' results' w',
    Forall Q booksData -> P books ->
    bulkLoop booksData i books results w = (Return (books', results'), w') ->
    P books'.
Proof.
  intros Hstep. induction booksData as [|bookData rest IH];
    intros i books results w books' results' w' HQ HP.
  - cbn [bulkLoop ret]. by intros [= <- _ _].
  - apply Forall_cons in HQ as [HQ1 HQ].
    cbn [bulkLoop]. unfold bind at 1, newDate.
    destruct (0 <? length (validateBook _ _))%nat eqn:Hv; [by apply IH|].
    apply no_errors in Hv.
    destruct (List.find _ _) eqn:Hdup; [by apply IH|].
    unfold bind at 1, newDate. unfold bind at 1, newDate. cbv beta zeta.
    apply IH; [done|]. by eapply Hstep.
Qed.

Lemma bulk_stored (booksData : list BookData.t) (w : World) :
  exists books' results' w1,
    bulkLoop booksData 0 (stored w) (Results.mk [] []) w
    = (Return (books', results'), w1)
    /\ (stored (snd (post_api_books_bulk (Some booksData) w)) = books'
        \/ stored (snd (post_api_books_bulk (Some booksData) w)) = stored w).
Proof.
  destruct (bulkLoop_returns booksData 0 (stored w) (Results.mk [] []) w)
    as (added & failed & w1 & Hrun & Hf & Hw & Hlog & _).
  do 3 eexists. split; [exact Hrun|].
  unfold post_api_books_bulk, tryCatch.
  erewrite bind_Return by apply readBooks_stored.
  erewrite bind_Return by exact Hrun. cbv beta zeta iota.
  cbn [Results.success app].
  destruct added as [|a added]; cbn [length Nat.ltb Nat.leb].
  - right. unfold res_status_json, ret. cbn [snd]. unfold stored. by rewrite Hf.
  - unfold bind, writeBooks, fs_writeFile, res_status_json, ret.
    destruct (writable w1); cbn [snd]; unfold stored at 1; cbn [file].
    + by left.
    + right. unfold stored. by rewrite Hf.
Qed.

(** Property X2. Unique ids stay unique through create, update, delete and
    bulk create. *)
Theorem ids_stay_unique (w : World) :
  uniqueIds (stored w) ->
  (forall bookData, uniqueIds (stored (snd (post_api_books bookData w))))
  /\ (forall id bookData,
        uniqueIds (stored (snd (put_api_books_id id bookData w))))
  /\ (forall id, uniqueIds (stored (snd (delete_api_books_id id w))))
  /\ (forall booksData,
        uniqueIds (stored (snd (post_api_books_bulk booksData w)))).
Proof.
  intros Huniq. split_and!.
  - intros bookData. rewrite post_api_books_cases.
    destruct (validateBook _ _); [|done].
    destruct (List.find _ _); [done|].
    cbn [snd]. rewrite stored_afterWrite.
    destruct (writable w); [|done]. by apply uniqueIds_newBook.
  - intros id bookData. rewrite put_api_books_id_cases.
    destruct (validateBook _ _); [|done].
    destruct (findIndex _ _) as [i|]; [|done].
    destruct (List.find _ _); [done|].
    destruct (stored w !! i) as [old|] eqn:Hold; [|done].
    cbn [snd]. rewrite stored_afterWrite.
    destruct (writable w); [|done].
    unfold uniqueIds. rewrite list_fmap_insert. cbn [updatedBook Book.id].
    rewrite list_insert_id; [done|]. by rewrite list_lookup_fmap, Hold.
  - intros id. rewrite delete_api_books_id_cases.
    destruct (findIndex _ _) as [i|]; [|done].
    destruct (stored w !! i); [|done].
    cbn [snd]. rewrite stored_afterWrite.
    destruct (writable w); [|done].
    unfold uniqueIds. rewrite list_fmap_delete.
    eapply sublist_NoDup; [done|apply sublist_delete].
  - intros [booksData|]; [|done].
    destruct (bulk_stored booksData w) as (books' & results' & w1 & Hrun & [->| ->]);
      [|done].
    eapply (bulkLoop_invariant uniqueIds (fun _ => True));
      [|by apply Forall_true|exact Huniq|exact Hrun].
    intros. by apply uniqueIds_newBook.
Qed.

(** Property X3. Create, update, delete and bulk create always answer, with
    the success status of the route, 400, 404 or 500. A 400 or 404 answer
    comes before any write: the file and the log of attempted writes are
    as they were. A successful create, update or delete has made exactly
    one write, of the collection now stored. *)
Theorem rejections_write_nothing (w : World) :
  (forall bookData, exists r w',
      post_api_books bookData w = (Return r, w')
      /\ ((status r = 201 /\ written w' = written w ++ [stored w'])
          \/ (status r = 400 /\ file w' = file w /\ written w' = written w)
          \/ status r = 500))
  /\ (forall id bookData, exists r w',
        put_api_books_id id bookData w = (Return r, w')
        /\ ((status r = 200 /\ written w' = written w ++ [stored w'])
            \/ ((status r = 400 \/ status r = 404)
                /\ file w' = file w /\ written w' = written w)
            \/ status r = 500))
  /\ (forall id, exists r w',
        delete_api_books_id id w = (Return r, w')
        /\ ((status r = 200 /\ written w' = written w ++ [stored w'])
            \/ (status r = 404 /\ file w' = file w /\ written w' = written w)
            \/ status r = 500))
  /\ (forall booksData, exists r w',
        post_api_books_bulk booksData w = (Return r, w')
        /\ (status r = 201
            \/ (status r = 400 /\ file w' = file w /\ written w' = written w)
            \/ status r = 500)).
Proof.
  split_and!.
  - intros bookData. rewrite post_api_books_cases.
    destruct (validateBook _ _); [|do 2 eexists; split; [done|]; right; left; done].
    destruct (List.find _ _); [do 2 eexists; split; [done|]; right; left; done|].
    do 2 eexists. split; [done|]. unfold afterWrite, stored. cbn [file written].
    destruct (writable w); [by left | by right; right].
  - intros id bookData. rewrite put_api_books_id_cases.
    destruct (validateBook _ _);
      [|do 2 eexists; split; [done|]; right; left; split_and!; auto].
    destruct (findIndex _ _) as [i|] eqn:Hi;
      [|do 2 eexists; split; [done|]; right; left; split_and!; auto].
    destruct (findIndex_lookup _ _ _ Hi) as (old & -> & _).
    destruct (List.find _ _);
      [do 2 eexists; split; [done|]; right; left; split_and!; auto|].
    do 2 eexists. split; [done|]. unfold afterWrite, stored. cbn [file written].
    destruct (writable w); [by left | by right; right].
  - intros id. rewrite delete_api_books_id_cases.
    destruct (findIndex _ _) as [i|] eqn:Hi;
      [|do 2 eexists; split; [done|]; right; left; done].
    destruct (findIndex_lookup _ _ _ Hi) as (old & -> & _).
    do 2 eexists. split; [done|]. unfold afterWrite, stored. cbn [file written].
    destruct (writable w); [by left | by right; right].
  - intros [booksData|];
      [|do 2 eexists; split; [done|]; right; left; done].
    destruct (bulkLoop_returns booksData 0 (stored w) (Results.mk [] []) w)
      as (added & failed & w1 & Hrun & Hf & Hw & Hlog & _).
    unfold post_api_books_bulk, tryCatch.
    erewrite bind_Return by apply readBooks_stored.
    erewrite bind_Return by exact Hrun. cbv beta zeta iota.
    cbn [Results.success app].
    destruct added as [|a added]; cbn [length Nat.ltb Nat.leb].
    + do 2 eexists. split; [done|]. by left.
    + unfold bind, writeBooks, fs_writeFile, res_status_json, ret.
      destruct (writable w1) eqn:E; do 2 eexists; (split; [done|]);
        [by left | by right; right].
Qed.

Lemma find_delete_other {A} (p : A -> bool) (l : list A) (i : nat) (x : A) :
  l !! i = Some x -> p x = false -> List.find p (delete i l) = List.find p l.
Proof.
  revert i. induction l as [|y l IH]; intros [|i]; simpl; try done.
  - by intros [= ->] ->.
  - intros Hi Hx. destruct (p y); [done|]. by apply IH.
Qed.

Lemma find_absent {A} (p : A -> bool) (l : list A) :
  (forall x, x ∈ l -> p x = false) -> List.find p l = None.
Proof.
  induction l as [|y l IH]; intros H; simpl; [done|].
  rewrite (H y) by apply list_elem_of_here.
  apply IH. intros x Hx. apply H. by apply list_elem_of_further.
Qed.

Lemma findIndex_absent {A} (p : A -> bool) (l : list A) :
  (forall x, x ∈ l -> p x = false) -> findIndex p l = None.
Proof.
  induction l as [|y l IH]; intros H; cbn [findIndex]; [done|].
  rewrite (H y) by apply list_elem_of_here.
  rewrite IH; [done|]. intros x Hx. apply H. by apply list_elem_of_further.
Qed.

Lemma findIndex_present {A} (p : A -> bool) (l : list A) (x : A) :
  x ∈ l -> p x = true -> is_Some (findIndex p l).
Proof.
  induction 1 as [x l|x y l _ IH]; intros Hp; cbn [findIndex].
  - by rewrite Hp.
  - destruct (p y); [done|]. destruct (IH Hp) as [i ->]. done.
Qed.

(** Property X4. DELETE answers 404 and changes nothing when no book has the
    id; otherwise (ids unique, disk writable) it removes exactly the book,
    GET on that id then answers 404 and GET on other ids answers as before. *)
Theorem delete_then_fetch (w : World) (id : string) (n : Z) :
  JsNumber.parseInt id = Some n ->
  ((forall b, b ∈ stored w -> Book.id b <> n) ->
   delete_api_books_id id w
   = (Return (mkResponse 404 (JError "Book not found")), w))
  /\ (forall book,
        book ∈ stored w -> Book.id book = n ->
        uniqueIds (stored w) -> writable w = true ->
        exists (i : nat) (w' : World),
          delete_api_books_id id w
          = (Return (mkResponse 200
                       (JDeleted "Book deleted successfully" book)), w')
          /\ stored w !! i = Some book
          /\ stored w' = delete i (stored w)
          /\ written w' = written w ++ [stored w']
          /\ get_api_books_id id w'
             = (Return (mkResponse 404 (JError "Book not found")), w')
          /\ forall id',
               JsNumber.parseInt id' <> Some n ->
               fst (get_api_books_id id' w') = fst (get_api_books_id id' w)).
Proof.
  intros Hid. split.
  - intros Hno. rewrite delete_api_books_id_cases, Hid.
    rewrite findIndex_absent; [done|].
    intros b Hb. cbn [strictEq]. apply Z.eqb_neq. by apply Hno.
  - intros book Hin Hbook Huniq Hw.
    rewrite delete_api_books_id_cases, Hid.
    destruct (findIndex_present (fun b => strictEq (Book.id b) (Some n))
                (stored w) book Hin) as [i Hi].
    { cbn [strictEq]. by apply Z.eqb_eq. }
    rewrite Hi.
    destruct (findIndex_lookup _ _ _ Hi) as (found & Hfound & Hp & _).
    cbn [strictEq] in Hp. apply Z.eqb_eq in Hp.
    apply list_elem_of_lookup in Hin as [j Hj].
    assert (i = j) as <-.
    { eapply (NoDup_lookup _ _ _ n Huniq);
        rewrite list_lookup_fmap; [rewrite Hfound | rewrite Hj]; simpl; congruence. }
    assert (found = book) as -> by congruence.
    rewrite Hfound, Hw.
    assert (forall y, y ∈ delete i (stored w) -> Book.id y <> n) as Hgone.
    { intros y Hy Hyn.
      apply list_elem_of_lookup in Hy as [k Hk].
      rewrite list_lookup_delete in Hk.
      destruct (decide (k < i)%nat).
      - assert (k = i); [|lia].
        eapply (NoDup_lookup _ _ _ n Huniq);
          rewrite list_lookup_fmap; [rewrite Hk | rewrite Hfound]; simpl; congruence.
      - assert (S k = i); [|lia].
        eapply (NoDup_lookup _ _ _ n Huniq);
          rewrite list_lookup_fmap; [rewrite Hk | rewrite Hfound]; simpl; congruence. }
    exists i. eexists. split; [reflexivity|].
    rewrite stored_afterWrite, Hw. split_and!; try done.
    + unfold get_api_books_id. reads. rewrite stored_afterWrite, Hw, Hid.
      rewrite find_absent; [done|].
      intros y Hy. cbn [strictEq]. apply Z.eqb_neq. by apply Hgone.
    + intros id' Hid'. unfold get_api_books_id.
      unfold tryCatch at 1; erewrite bind_Return by apply readBooks_stored.
      unfold tryCatch at 1; erewrite bind_Return by apply readBooks_stored.
      rewrite stored_afterWrite, Hw. cbv beta zeta.
      rewrite (find_delete_other _ _ _ _ Hfound).
      * by destruct (List.find _ _).
      * destruct (JsNumber.parseInt id') as [m|]; [|done].
        cbn [strictEq]. apply Z.eqb_neq. congruence.
Qed.

(** Property X6. An update that keeps title and author of its book, letter
    case aside, is not taken for a duplicate: it answers 200. *)
Theorem update_keeping_title_and_author (w : World) (id : string)
    (bookData : BookData.t) (i : nat) (old : Book.t) :
  validateBook (Date.getFullYear (clock w (ticks w))) bookData = [] ->
  findIndex (fun b => strictEq (Book.id b) (JsNumber.parseInt id)) (stored w)
  = Some i ->
  stored w !! i = Some old ->
  sameTitleAuthor old bookData = true ->
  uniquePairs (stored w) ->
  writable w = true ->
  exists w',
    put_api_books_id id bookData w
    = (Return (mkResponse 200
                 (JBook (updatedBook old bookData (clock w (S (ticks w)))))),
       w')
    /\ stored w'
       = <[i := updatedBook old bookData (clock w (S (ticks w)))]> (stored w).
Proof.
  intros Hvalid Hi Hold Hsame Hpairs Hw.
  rewrite put_api_books_id_cases, Hvalid, Hi, Hold, Hw.
  destruct (findIndex_lookup _ _ _ Hi) as (old' & Hold' & Hp & _).
  assert (old' = old) as -> by congruence.
  rewrite find_absent.
  - eexists. split; [reflexivity|]. by rewrite stored_afterWrite, Hw.
  - intros b Hb. apply list_elem_of_lookup in Hb as [j Hj].
    destruct (sameTitleAuthor b bookData) eqn:Hb; [|apply andb_false_r].
    assert (j = i) as ->.
    { apply (Hpairs j i b old Hj Hold).
      unfold sameTitleAuthor in Hb, Hsame.
      apply andb_prop in Hb as [H1 H2], Hsame as [H3 H4].
      apply String.eqb_eq in H1, H2, H3, H4. split; congruence. }
    assert (b = old) as -> by congruence.
    by rewrite Hp.
Qed.

(** Property X7. On a missing or unparsable file a valid create answers 201
    with id 1, and the file then holds that one book. *)
Theorem create_on_unreadable_file (w : World) (bookData : BookData.t) :
  file w = None \/ file w = Some Unparsable ->
  validateBook (Date.getFullYear (clock w (ticks w))) bookData = [] ->
  writable w = true ->
  exists (book : Book.t) (w' : World),
    post_api_books bookData w = (Return (mkResponse 201 (JBook book)), w')
    /\ Book.id book = 1
    /\ file w' = Some (Stringified [book]).
Proof.
  intros Hfile Hvalid Hw.
  assert (stored w = []) as Hempty
    by (unfold stored; destruct Hfile as [-> | ->]; done).
  rewrite post_api_books_cases, Hvalid, Hempty, Hw. cbn [List.find].
  do 2 eexists. split; [reflexivity|]. unfold afterWrite. by rewrite Hw.
Qed.

Lemma fold_max_in (ids : list Z) (n : Z) :
  fold_left Z.max ids n = n \/ fold_left Z.max ids n ∈ ids.
Proof.
  revert n. induction ids as [|i ids IH]; intros n; simpl; [by left|].
  destruct (IH (Z.max n i)) as [H|H].
  - rewrite H. destruct (Z.max_spec n i) as [[_ ->]|[_ ->]].
    + right. apply list_elem_of_here.
    + by left.
  - right. by apply list_elem_of_further.
Qed.

Lemma generateId_attained (books : list Book.t) :
  books <> [] -> exists b, b ∈ books /\ generateId books = Book.id b + 1.
Proof.
  intros Hne. unfold generateId.
  destruct books as [|b0 books]; [done|]. cbn [fmap list_fmap].
  destruct (fold_max_in (Book.id <$> books) (Book.id b0)) as [H|H].
  - exists b0. split; [apply list_elem_of_here|]. by rewrite H.
  - apply list_elem_of_fmap in H as (b & Hb & Hin).
    exists b. split; [by apply list_elem_of_further|]. by rewrite Hb.
Qed.

Lemma generateId_of_largest (books : list Book.t) (top : Book.t) :
  top ∈ books -> (forall b, b ∈ books -> Book.id b <= Book.id top) ->
  generateId books = Book.id top + 1.
Proof.
  intros Hin Hmax.
  destruct (generateId_attained books) as (b & Hb & Hgen).
  { intros ->. by apply elem_of_nil in Hin. }
  pose proof (generateId_fresh _ _ Hin) as Hfresh.
  specialize (Hmax b Hb). lia.
Qed.

(** Property X1. [generateId] is 1 on the empty collection and otherwise one more than
    the largest id, hence larger than every id present. *)
Theorem generateId_next_after_largest (books : list Book.t) :
  generateId [] = 1
  /\ (forall b, b ∈ books -> Book.id b < generateId books)
  /\ (books <> [] ->
      exists top, top ∈ books
                  /\ (forall b, b ∈ books -> Book.id b <= Book.id top)
                  /\ generateId books = Book.id top + 1).
Proof.
  split_and!; [done|apply generateId_fresh|].
  intros Hne. destruct (generateId_attained books Hne) as (top & Hin & Hgen).
  exists top. split_and!; [done| |done].
  intros b Hb. pose proof (generateId_fresh _ _ Hb). lia.
Qed.

(** Property X5. After the book with the largest id is deleted, while the id
    just below is present, [generateId] returns the deleted id again. *)
Theorem deleted_top_id_is_reused (w : World) (id : string) (top below : Book.t) :
  JsNumber.parseInt id = Some (Book.id top) ->
  uniqueIds (stored w) ->
  top ∈ stored w -> below ∈ stored w ->
  Book.id below = Book.id top - 1 ->
  (forall b, b ∈ stored w -> Book.id b <= Book.id top) ->
  writable w = true ->
  exists w',
    delete_api_books_id id w
    = (Return (mkResponse 200 (JDeleted "Book deleted successfully" top)), w')
    /\ generateId (stored w') = Book.id top.
Proof.
  intros Hid Huniq Htop Hbelow Hpred Hmax Hw.
  rewrite delete_api_books_id_cases, Hid.
  destruct (findIndex_present (fun b => strictEq (Book.id b) (Some (Book.id top)))
              (stored w) top Htop) as [i Hi].
  { cbn [strictEq]. apply Z.eqb_refl. }
  rewrite Hi.
  destruct (findIndex_lookup _ _ _ Hi) as (found & Hfound & Hp & _).
  cbn [strictEq] in Hp. apply Z.eqb_eq in Hp.
  pose proof Htop as Htop'.
  apply list_elem_of_lookup in Htop' as [j Hj].
  assert (i = j) as <-.
  { eapply (NoDup_lookup _ _ _ (Book.id top) Huniq);
      rewrite list_lookup_fmap; [rewrite Hfound | rewrite Hj]; simpl; congruence. }
  assert (found = top) as -> by congruence.
  rewrite Hfound, Hw. eexists. split; [reflexivity|].
  rewrite stored_afterWrite, Hw.
  assert (forall y, y ∈ delete i (stored w) -> y ∈ stored w /\ Book.id y <> Book.id top)
    as Hrest.
  { intros y Hy. split.
    - eapply elem_of_sublist; [done|apply sublist_delete].
    - intros Hyn. apply list_elem_of_lookup in Hy as [k Hk].
      rewrite list_lookup_delete in Hk.
      destruct (decide (k < i)%nat).
      + assert (k = i); [|lia].
        eapply (NoDup_lookup _ _ _ (Book.id top) Huniq);
          rewrite list_lookup_fmap; [rewrite Hk | rewrite Hfound]; simpl; congruence.
      + assert (S k = i); [|lia].
        eapply (NoDup_lookup _ _ _ (Book.id top) Huniq);
          rewrite list_lookup_fmap; [rewrite Hk | rewrite Hfound]; simpl; congruence. }
  assert (below ∈ delete i (stored w)) as Hin.
  { apply list_elem_of_lookup in Hbelow as [k Hk].
    assert (k <> i) by (intros ->; rewrite Hfound in Hk; injection Hk as <-; lia).
    apply list_elem_of_lookup.
    destruct (decide (k < i)%nat).
    - exists k. by rewrite list_lookup_delete_lt.
    - exists (pred k). rewrite list_lookup_delete_ge by lia.
      by replace (S (pred k)) with k by lia. }
  rewrite (generateId_of_largest _ below Hin); [lia|].
  intros b Hb. destruct (Hrest b Hb) as [Hb1 Hb2].
  specialize (Hmax b Hb1). lia.
Qed.

Section Trim.
Import JsString.

Lemma trimStart_headVisible s : headVisible (trimStart s) = true.
Proof.
  induction s as [|c s IH]; simpl; [done|].
  destruct (isWhiteSpace c) eqn:E; [done|]. simpl. by rewrite E.
Qed.

Lemma trimEnd_headVisible s :
  headVisible s = true -> headVisible (trimEnd s) = true.
Proof.
  destruct s as [|c s]; simpl; [done|]. intros Hc.
  destruct (trimEnd s); simpl; [|done].
  destruct (isWhiteSpace c) eqn:E; simpl in *; rewrite ?E; done.
Qed.

Lemma trimStart_fixed s : headVisible s = true -> trimStart s = s.
Proof.
  destruct s as [|c s]; simpl; [done|]. by destruct (isWhiteSpace c).
Qed.

Lemma trimEnd_idempotent s : trimEnd (trimEnd s) = trimEnd s.
Proof.
  induction s as [|c s IH]; simpl; [done|].
  destruct (trimEnd s) as [|d t] eqn:E.
  - destruct (isWhiteSpace c) eqn:Ec; simpl; [done|]. by rewrite Ec.
  - cbn [trimEnd] in *. fold trimEnd in *. 
    change (trimEnd (String c (String d t))) with
      (match trimEnd (String d t) with
       | EmptyString => if isWhiteSpace c then EmptyString else String c EmptyString
       | r' => String c r'
       end).
    by rewrite IH.
Qed.

Lemma trim_idempotent s : trim (trim s) = trim s.
Proof.
  unfold trim.
  rewrite (trimStart_fixed (trimEnd (trimStart s))).
  - apply trimEnd_idempotent.
  - apply trimEnd_headVisible, trimStart_headVisible.
Qed.

Lemma nonBlank_trimmed v :
  Rules.nonBlank v = true -> trimmed (trim (str v)).
Proof.
  destruct v as [s|]; [|done]. cbn [Rules.nonBlank str default from_option id].
  intros H. split; [|apply trim_idempotent].
  intros E%trim_empty. by rewrite E in H.
Qed.
End Trim.

Lemma valid_nonBlank currentYear bookData :
  validateBook currentYear bookData = [] ->
  Rules.nonBlank (BookData.title bookData) = true
  /\ Rules.nonBlank (BookData.author bookData) = true.
Proof.
  rewrite validateBook_messages. unfold Rules.messages.
  destruct (Rules.nonBlank (BookData.title bookData)),
    (Rules.nonBlank (BookData.author bookData)); try done;
    simpl; by repeat destruct (_ : bool).
Qed.

Lemma valid_newBook_wellFormed currentYear books bookData created updated :
  validateBook currentYear bookData = [] ->
  wellFormed (newBook books bookData created updated).
Proof.
  intros Hvalid.
  destruct (valid_nonBlank _ _ Hvalid) as [Ht Ha].
  split; cbn [newBook Book.title Book.author]; by apply nonBlank_trimmed.
Qed.

Lemma valid_updatedBook_wellFormed currentYear old bookData updated :
  validateBook currentYear bookData = [] ->
  wellFormed (updatedBook old bookData updated).
Proof.
  intros Hvalid.
  destruct (valid_nonBlank _ _ Hvalid) as [Ht Ha].
  split; cbn [updatedBook Book.title Book.author]; by apply nonBlank_trimmed.
Qed.

(** Property X8. Stored titles and authors stay non-empty and free of
    surrounding white space through every mutation. *)
Theorem stored_records_stay_trimmed (w : World) :
  Forall wellFormed (stored w) ->
  (forall bookData,
      Forall wellFormed (stored (snd (post_api_books bookData w))))
  /\ (forall id bookData,
        Forall wellFormed (stored (snd (put_api_books_id id bookData w))))
  /\ (forall id, Forall wellFormed (stored (snd (delete_api_books_id id w))))
  /\ (forall booksData,
        Forall wellFormed (stored (snd (post_api_books_bulk booksData w)))).
Proof.
  intros Hinv. split_and!.
  - intros bookData. rewrite post_api_books_cases.
    destruct (validateBook _ _) eqn:Hvalid; [|done].
    destruct (List.find _ _); [done|].
    cbn [snd]. rewrite stored_afterWrite.
    destruct (writable w); [|done].
    apply Forall_app. split; [done|].
    constructor; [|constructor]. by eapply valid_newBook_wellFormed.
  - intros id bookData. rewrite put_api_books_id_cases.
    destruct (validateBook _ _) eqn:Hvalid; [|done].
    destruct (findIndex _ _) as [i|]; [|done].
    destruct (List.find _ _); [done|].
    destruct (stored w !! i) as [old|] eqn:Hold; [|done].
    cbn [snd]. rewrite stored_afterWrite.
    destruct (writable w); [|done].
    apply Forall_insert; [done|]. by eapply valid_updatedBook_wellFormed.
  - intros id. rewrite delete_api_books_id_cases.
    destruct (findIndex _ _) as [i|]; [|done].
    destruct (stored w !! i); [|done].
    cbn [snd]. rewrite stored_afterWrite.
    destruct (writable w); [|done].
    by apply Forall_delete.
  - intros [booksData|]; [|done].
    destruct (bulk_stored booksData w) as (books' & results' & w1 & Hrun & [->| ->]);
      [|done].
    eapply (bulkLoop_invariant (Forall wellFormed) (fun _ => True));
      [|by apply Forall_true|exact Hinv|exact Hrun].
    intros books bookData cy created updated _ HP Hvalid _.
    apply Forall_app. split; [done|].
    constructor; [|constructor]. by eapply valid_newBook_wellFormed.
Qed.

Lemma uniquePairs_append (books : list Book.t) (new : Book.t) :
  uniquePairs books ->
  (forall a, a ∈ books -> ~ samePair a new) ->
  uniquePairs (books ++ [new]).
Proof.
  intros Huniq Hfresh i j a b Hi Hj Hsame.
  destruct (decide (i < length books)%nat) as [Hil|Hil],
           (decide (j < length books)%nat) as [Hjl|Hjl].
  - rewrite lookup_app_l in Hi, Hj by done. by eapply Huniq.
  - rewrite lookup_app_l in Hi by done.
    rewrite lookup_app_r in Hj by lia.
    apply list_lookup_singleton_Some in Hj as [_ <-].
    exfalso. eapply Hfresh; [|done]. by eapply list_elem_of_lookup_2.
  - rewrite lookup_app_l in Hj by done.
    rewrite lookup_app_r in Hi by lia.
    apply list_lookup_singleton_Some in Hi as [_ <-].
    exfalso. eapply (Hfresh b); [by eapply list_elem_of_lookup_2|].
    destruct Hsame. by split.
  - apply lookup_lt_Some in Hi, Hj. rewrite length_app in Hi, Hj.
    simpl in Hi, Hj. lia.
Qed.

Lemma newBook_fresh_pair books bookData created updated :
  sentTrimmed bookData ->
  List.find (fun b => sameTitleAuthor b bookData) books = None ->
  forall a, a ∈ books -> ~ samePair a (newBook books bookData created updated).
Proof.
  intros [Ht Ha] Hdup a Hin [H1 H2].
  pose proof (find_none_all _ _ Hdup a Hin) as Hno.
  unfold sameTitleAuthor in Hno. cbn [newBook Book.title Book.author] in H1, H2.
  rewrite Ht in H1. rewrite Ha in H2. rewrite H1, H2, !String.eqb_refl in Hno.
  discriminate.
Qed.

Lemma uniquePairs_delete (books : list Book.t) (i : nat) :
  uniquePairs books -> uniquePairs (delete i books).
Proof.
  intros Huniq a b x y Ha Hb Hsame.
  rewrite list_lookup_delete in Ha, Hb.
  destruct (decide (a < i)%nat), (decide (b < i)%nat);
    pose proof (Huniq _ _ _ _ Ha Hb Hsame); lia.
Qed.

Lemma uniquePairs_update (books : list Book.t) (i : nat) (old : Book.t)
    (bookId : option Z) (bookData : BookData.t) (updated : Date.t) :
  uniqueIds books -> uniquePairs books -> sentTrimmed bookData ->
  books !! i = Some old -> strictEq (Book.id old) bookId = true ->
  List.find (fun b => negb (strictEq (Book.id b) bookId)
                      && sameTitleAuthor b bookData) books = None ->
  uniquePairs (<[i := updatedBook old bookData updated]> books).
Proof.
  intros Hids Hpairs [Ht Ha] Hold Hid Hdup.
  assert (forall j y, books !! j = Some y ->
                      samePair y (updatedBook old bookData updated) -> j = i)
    as Hnew.
  { intros j y Hj [H1 H2].
    pose proof (find_none_all _ _ Hdup y (list_elem_of_lookup_2 _ _ _ Hj)) as Hno.
    cbn [updatedBook Book.title Book.author] in H1, H2.
    rewrite Ht in H1. rewrite Ha in H2.
    unfold sameTitleAuthor in Hno.
    rewrite H1, H2, !String.eqb_refl, andb_true_r in Hno.
    apply negb_false_iff in Hno.
    destruct bookId as [n|]; [|done]. cbn [strictEq] in Hid, Hno.
    apply Z.eqb_eq in Hid, Hno.
    eapply (NoDup_lookup _ _ _ n Hids);
      rewrite list_lookup_fmap; [rewrite Hj | rewrite Hold]; simpl; congruence. }
  intros a b x y Hx Hy Hsame.
  destruct (decide (a = i)) as [->|Hai], (decide (b = i)) as [->|Hbi]; [done|..].
  - rewrite list_lookup_insert_eq in Hx by (by eapply lookup_lt_Some).
    rewrite list_lookup_insert_ne in Hy by done.
    injection Hx as <-. symmetry. apply (Hnew b y Hy).
    destruct Hsame. by split.
  - rewrite list_lookup_insert_eq in Hy by (by eapply lookup_lt_Some).
    rewrite list_lookup_insert_ne in Hx by done.
    injection Hy as <-. by apply (Hnew a x Hx).
  - rewrite list_lookup_insert_ne in Hx, Hy by done. by eapply Hpairs.
Qed.

(** Property X9. Unique pairs stay unique through mutations whose candidates
    carry no surrounding white space in title and author. *)
Theorem pairs_stay_unique_when_sent_trimmed (w : World) :
  uniqueIds (stored w) -> uniquePairs (stored w) ->
  (forall bookData,
      sentTrimmed bookData ->
      uniquePairs (stored (snd (post_api_books bookData w))))
  /\ (forall id bookData,
        sentTrimmed bookData ->
        uniquePairs (stored (snd (put_api_books_id id bookData w))))
  /\ (forall id, uniquePairs (stored (snd (delete_api_books_id id w))))
  /\ (forall booksData,
        Forall sentTrimmed booksData ->
        uniquePairs (stored (snd (post_api_books_bulk (Some booksData) w)))).
Proof.
  intros Hids Hpairs. split_and!.
  - intros bookData Htrim. rewrite post_api_books_cases.
    destruct (validateBook _ _); [|done].
    destruct (List.find _ _) eqn:Hdup; [done|].
    cbn [snd]. rewrite stored_afterWrite.
    destruct (writable w); [|done].
    apply uniquePairs_append; [done|]. by apply newBook_fresh_pair.
  - intros id bookData Htrim. rewrite put_api_books_id_cases.
    destruct (validateBook _ _); [|done].
    destruct (findIndex _ _) as [i|] eqn:Hi; [|done].
    destruct (findIndex_lookup _ _ _ Hi) as (old & Hold & Hid & _).
    rewrite Hold.
    destruct (List.find _ _) eqn:Hdup; [done|].
    cbn [snd]. rewrite stored_afterWrite.
    destruct (writable w); [|done].
    by eapply uniquePairs_update.
  - intros id. rewrite delete_api_books_id_cases.
    destruct (findIndex _ _) as [i|]; [|done].
    destruct (stored w !! i); [|done].
    cbn [snd]. rewrite stored_afterWrite.
    destruct (writable w); [|done].
    by apply uniquePairs_delete.
  - intros booksData Htrim.
    destruct (bulk_stored booksData w) as (books' & results' & w1 & Hrun & [->| ->]);
      [|done].
    eapply (bulkLoop_invariant uniquePairs sentTrimmed);
      [|exact Htrim|exact Hpairs|exact Hrun].
    intros books bookData cy created updated HQ HP _ Hdup.
    apply uniquePairs_append; [done|]. by apply newBook_fresh_pair.
Qed.

(** ** Sorting, statistics and the lists of genres and authors *)

Section Sorting.
Context {A : Type} (le : A -> A -> bool).
Hypothesis le_total : forall a b, le a b = true \/ le b a = true.

Lemma sortInsert_HdRel (y x : A) (l : list A) :
  le y x = true -> HdRel (fun a b => le a b = true) y l ->
  HdRel (fun a b => le a b = true) y (sortInsert le x l).
Proof.
  intros Hyx Hl. destruct l as [|z l]; simpl; [by constructor|].
  destruct (le x z); constructor; [done|]. by inversion Hl.
Qed.

Lemma sortInsert_Sorted (x : A) (l : list A) :
  Sorted (fun a b => le a b = true) l ->
  Sorted (fun a b => le a b = true) (sortInsert le x l).
Proof.
  induction 1 as [|y l Hs IH Hhd]; simpl; [by repeat constructor|].
  destruct (le x y) eqn:Hxy.
  - repeat constructor; done.
  - constructor; [done|]. apply sortInsert_HdRel; [|done].
    destruct (le_total x y); congruence.
Qed.

Lemma Array_sort_Sorted (l : list A) :
  Sorted (fun a b => le a b = true) (Array_sort le l).
Proof.
  induction l as [|x l IH]; [constructor|].
  unfold Array_sort in *. simpl. by apply sortInsert_Sorted.
Qed.
End Sorting.

Lemma Sorted_weaken {A} (R R' : A -> A -> Prop) (l : list A) :
  (forall a b, R a b -> R' a b) -> Sorted R l -> Sorted R' l.
Proof.
  intros H. induction 1 as [|x l _ IH Hhd]; constructor; [done|].
  destruct Hhd; constructor; auto.
Qed.

Lemma newestFirst_total a b : newestFirst a b = true \/ newestFirst b a = true.
Proof. unfold newestFirst. lia. Qed.

Lemma newest_StronglySorted (books : list Book.t) :
  StronglySorted (fun a b => Book.createdAt b <= Book.createdAt a)
                 (Array_sort newestFirst books).
Proof.
  apply Sorted_StronglySorted.
  { intros a b c ??. lia. }
  eapply Sorted_weaken; [|apply Array_sort_Sorted, newestFirst_total].
  unfold newestFirst. intros a b. simpl. lia.
Qed.

(** Property X15. [recentlyAdded] holds the min(5, N) newest books, newest
    first. *)
Theorem recently_added_are_the_newest (w : World) :
  exists (stats : Stats.t) (older : list Book.t),
    get_api_stats w = (Return (mkResponse 200 (JStats stats)), w)
    /\ Stats.recentlyAdded stats ++ older ≡ₚ stored w
    /\ length (Stats.recentlyAdded stats) = Nat.min 5 (length (stored w))
    /\ StronglySorted (fun a b => Book.createdAt b <= Book.createdAt a)
                      (Stats.recentlyAdded stats)
    /\ forall a b, a ∈ Stats.recentlyAdded stats -> b ∈ older ->
                   Book.createdAt b <= Book.createdAt a.
Proof.
  eexists. exists (drop 5 (Array_sort newestFirst (stored w))).
  split; [unfold get_api_stats; reads; reflexivity|].
  cbn [Stats.recentlyAdded].
  pose proof (newest_StronglySorted (stored w)) as Hs.
  pose proof (Array_sort_perm newestFirst (stored w)) as Hp.
  rewrite <- (take_drop 5 (Array_sort newestFirst (stored w))) in Hs.
  split_and!.
  - by rewrite take_drop.
  - rewrite length_take. by rewrite (Permutation_length Hp).
  - by apply StronglySorted_app_1_l in Hs.
  - intros a b Ha Hb.
    exact (StronglySorted_app_1_elem_of
             (fun a b => Book.createdAt b <= Book.createdAt a) _ _ a b Hs Ha Hb).
Qed.

Lemma sortedSet_spec (items : list string) :
  Sorted (fun a b => String.leb a b = true) (sortedSet items)
  /\ NoDup (sortedSet items)
  /\ forall x, x ∈ sortedSet items <-> x ∈ items.
Proof.
  unfold sortedSet. split_and!.
  - apply Array_sort_Sorted, String.leb_total.
  - rewrite Array_sort_perm. apply NoDup_elements.
  - intros x. rewrite Array_sort_perm, elem_of_elements.
    apply elem_of_list_to_set.
Qed.

(** Property X17. The lists of genres and of authors are sorted, free of
    duplicates and hold exactly what the stored books have. *)
Theorem genres_and_authors_sorted_distinct (w : World) :
  exists genres authors : list string,
    get_api_genres w = (Return (mkResponse 200 (JStrings genres)), w)
    /\ get_api_authors w = (Return (mkResponse 200 (JStrings authors)), w)
    /\ Sorted (fun a b => String.leb a b = true) genres
    /\ Sorted (fun a b => String.leb a b = true) authors
    /\ NoDup genres /\ NoDup authors
    /\ (forall g, g ∈ genres <-> exists book, book ∈ stored w /\ Book.genre book = g)
    /\ (forall a, a ∈ authors <-> exists book, book ∈ stored w /\ Book.author book = a).
Proof.
  do 2 eexists.
  split; [unfold get_api_genres; reads; reflexivity|].
  split; [unfold get_api_authors; reads; reflexivity|].
  destruct (sortedSet_spec (Book.genre <$> stored w)) as (Hs1 & Hn1 & Hm1).
  destruct (sortedSet_spec (Book.author <$> stored w)) as (Hs2 & Hn2 & Hm2).
  split_and!; try done.
  - intros g. rewrite Hm1, list_elem_of_fmap.
    split; [intros (b & -> & Hb) | intros (b & Hb & <-)]; eauto.
  - intros a. rewrite Hm2, list_elem_of_fmap.
    split; [intros (b & -> & Hb) | intros (b & Hb & <-)]; eauto.
Qed.

Lemma distinct_count (items l : list string) :
  NoDup l -> (forall x, x ∈ l <-> x ∈ items) ->
  size (list_to_set items : gset string) = length l.
Proof.
  intros Hnd Hmem. rewrite <- (size_list_to_set (C := gset string) l Hnd).
  f_equal. apply set_eq. intros x. rewrite !elem_of_list_to_set. by rewrite Hmem.
Qed.

(** Property X16. The statistics count the store: all books, distinct authors
    and genres, and per decade label the books with a truthy year in it. *)
Theorem statistics_count_the_store (w : World) :
  exists stats : Stats.t,
    get_api_stats w = (Return (mkResponse 200 (JStats stats)), w)
    /\ Stats.totalBooks stats = length (stored w)
    /\ (forall authors : list string,
          NoDup authors ->
          (forall a, a ∈ authors <->
                     exists book, book ∈ stored w /\ Book.author book = a) ->
          Stats.totalAuthors stats = length authors)
    /\ (forall genres : list string,
          NoDup genres ->
          (forall g, g ∈ genres <->
                     exists book, book ∈ stored w /\ Book.genre book = g) ->
          Stats.totalGenres stats = length genres)
    /\ (forall label,
          Stats.yearDistribution stats !! label
          = entry (length (List.filter (inDecade label) (stored w)))).
Proof.
  eexists. split; [unfold get_api_stats; reads; reflexivity|].
  cbn [Stats.totalBooks Stats.totalAuthors Stats.totalGenres
       Stats.yearDistribution].
  split_and!.
  - reflexivity.
  - intros authors Hnd Hmem. apply distinct_count; [done|].
    intros a. rewrite Hmem, list_elem_of_fmap.
    split; [intros (b & Hb & <-) | intros (b & -> & Hb)]; eauto.
  - intros genres Hnd Hmem. apply distinct_count; [done|].
    intros g. rewrite Hmem, list_elem_of_fmap.
    split; [intros (b & Hb & <-) | intros (b & -> & Hb)]; eauto.
  - intros label. rewrite countDecades_lookup.
    by rewrite (filter_length_perm _ _ _ (Array_sort_perm newestFirst _)).
Qed.

(** Property X18. The totals of the statistics are the lengths of the lists of
    genres and authors. *)
Theorem stats_totals_match_lists (w : World) :
  exists (stats : Stats.t) (genres authors : list string),
    get_api_stats w = (Return (mkResponse 200 (JStats stats)), w)
    /\ get_api_genres w = (Return (mkResponse 200 (JStrings genres)), w)
    /\ get_api_authors w = (Return (mkResponse 200 (JStrings authors)), w)
    /\ Stats.totalGenres stats = length genres
    /\ Stats.totalAuthors stats = length authors.
Proof.
  do 3 eexists.
  split; [unfold get_api_stats; reads; reflexivity|].
  split; [unfold get_api_genres; reads; reflexivity|].
  split; [unfold get_api_authors; reads; reflexivity|].
  cbn [Stats.totalGenres Stats.totalAuthors].
  destruct (sortedSet_spec (Book.genre <$> stored w)) as (_ & Hn1 & Hm1).
  destruct (sortedSet_spec (Book.author <$> stored w)) as (_ & Hn2 & Hm2).
  split; by apply distinct_count.
Qed.

(** ** Filters and pages *)

Lemma List_filter_sublist {A} (p : A -> bool) (l : list A) :
  sublist (List.filter p l) l.
Proof.
  induction l as [|x l IH]; simpl; [constructor|].
  destruct (p x); by constructor.
Qed.

Lemma List_filter_elem {A} (p : A -> bool) (l : list A) (x : A) :
  x ∈ List.filter p l <-> x ∈ l /\ p x = true.
Proof. rewrite !list_elem_of_In. apply filter_In. Qed.

Lemma looseEq_Some toNumber bookYear year :
  looseEq toNumber bookYear year = true
  <-> exists n, bookYear = Some n /\ toNumber year = Some n.
Proof.
  unfold looseEq. destruct bookYear as [a|], (toNumber year) as [b|];
    split; try discriminate; try (intros (n & ? & ?); congruence).
  - intros ->%Z.eqb_eq. eauto.
  - intros (n & [= ->] & [= ->]). apply Z.eqb_refl.
Qed.

(** Property X12. The filters of GET /api/books combine with "and": the
    filtered list, whose length is [total], keeps the stored order and holds
    exactly the stored books that pass every non-empty filter. *)
Theorem filters_combine_with_and (toNumber : string -> option Z)
    (query : Query.t) (w : World) :
  let filtered := applyFilters toNumber query (stored w) in
  get_api_books toNumber query w
  = (Return (mkResponse 200
               (JPage (paginate query filtered) (length filtered)
                      (length (paginate query filtered)))), w)
  /\ sublist filtered (stored w)
  /\ forall book,
       book ∈ filtered
       <-> book ∈ stored w
           /\ (truthyString (Query.search query) = true ->
               matchesSearch (JsString.toLowerCase (str (Query.search query)))
                             book = true)
           /\ (truthyString (Query.genre query) = true ->
               Book.genre book = str (Query.genre query))
           /\ (truthyString (Query.year query) = true ->
               exists n, Book.year book = Some n
                         /\ toNumber (str (Query.year query)) = Some n)
           /\ (truthyString (Query.author query) = true ->
               JsString.includes (JsString.toLowerCase (Book.author book))
                 (JsString.toLowerCase (str (Query.author query))) = true).
Proof.
  intros filtered. subst filtered.
  split; [unfold get_api_books; reads; reflexivity|].
  generalize (stored w). intros books.
  unfold applyFilters. split.
  - destruct (truthyString (Query.search query)),
      (truthyString (Query.genre query)),
      (truthyString (Query.year query)),
      (truthyString (Query.author query));
      repeat (etrans; [apply List_filter_sublist|]); done.
  - intros book.
    destruct (truthyString (Query.search query)),
      (truthyString (Query.genre query)),
      (truthyString (Query.year query)),
      (truthyString (Query.author query));
      rewrite ?List_filter_elem, ?String.eqb_eq, ?looseEq_Some;
      intuition discriminate.
Qed.

Lemma take_plus_app {A} (n m : nat) (l : list A) :
  take n l ++ take m (drop n l) = take (n + m) l.
Proof.
  revert l. induction n as [|n IH]; intros [|x l]; simpl; try done.
  - by rewrite take_nil.
  - by rewrite IH.
Qed.

(** Property X13. Two consecutive pages make up the page that spans both. *)
Theorem consecutive_pages_concatenate (q1 q2 q : Query.t)
    (books : list Book.t) (O L1 L2 : Z) :
  truthyString (Query.limit q1) = true ->
  truthyString (Query.limit q2) = true ->
  truthyString (Query.limit q) = true ->
  parseParam (Query.limit q1) = Some L1 ->
  parseParam (Query.limit q2) = Some L2 ->
  parseParam (Query.limit q) = Some (L1 + L2) ->
  default 0 (parseParam (Query.offset q1)) = O ->
  default 0 (parseParam (Query.offset q2)) = O + L1 ->
  default 0 (parseParam (Query.offset q)) = O ->
  0 <= O -> 0 <= L1 -> 0 <= L2 ->
  paginate q1 books ++ paginate q2 books = paginate q books.
Proof.
  intros T1 T2 T HL1 HL2 HL HO1 HO2 HO ? ? ?.
  unfold paginate. rewrite T1, T2, T, HL1, HL2, HL, HO1, HO2, HO.
  cbn [fmap option_fmap option_map].
  rewrite !slice_window by lia.
  rewrite Z2Nat.inj_add, <- drop_drop by lia.
  rewrite take_plus_app. f_equal. lia.
Qed.

(** Property X14. A limit that is not a number gives an empty page; a limit
    -k with offset 0 gives all but the last k books. *)
Theorem pagination_edge_cases (query : Query.t) (books : list Book.t) :
  truthyString (Query.limit query) = true ->
  (parseParam (Query.limit query) = None -> paginate query books = [])
  /\ (forall k,
        parseParam (Query.limit query) = Some (- k) -> 0 < k ->
        default 0 (parseParam (Query.offset query)) = 0 ->
        paginate query books = take (length books - Z.to_nat k) books).
Proof.
  intros T. unfold paginate. rewrite T. split.
  - intros ->. cbn [fmap option_fmap option_map].
    generalize (default 0 (parseParam (Query.offset query))). intros off.
    unfold slice. cbv [from_option id].
    change (0 <? 0) with false. cbv iota.
    match goal with |- take ?n _ = [] => replace n with 0%nat; [done|] end.
    destruct (off <? 0) eqn:E; lia.
  - intros k -> Hk ->. cbn [fmap option_fmap option_map]. unfold slice.
    cbv [from_option id]. change (0 <? 0) with false. cbv iota.
    destruct (0 + - k <? 0) eqn:E; [|lia].
    rewrite Z.min_l by lia. rewrite Z.sub_0_r. simpl drop.
    f_equal. lia.
Qed.

(** * The page *)

Lemma Math_max0_bounds (ids : list Z) :
  0 <= Math_max0 ids /\ forall x, x ∈ ids -> x <= Math_max0 ids.
Proof.
  induction ids as [|i ids [IH0 IH]]; simpl.
  - split; [done|]. intros x Hx. by apply elem_of_nil in Hx.
  - split; [lia|]. intros x [->|Hx]%elem_of_cons; [lia|].
    specialize (IH x Hx). lia.
Qed.

Lemma fold_left_max_foldr (ids : list Z) (n : Z) :
  Z.max 0 (fold_left Z.max ids n) = Z.max n (Math_max0 ids).
Proof.
  revert n. induction ids as [|i ids IH]; intros n; simpl; [lia|].
  rewrite IH. unfold Math_max0. lia.
Qed.

(** Property X19. Saving locally without an edit id appends the form data
    under max(ids, 0) + 1: at least 1, above every id, and the id of the
    server's [generateId] when no id is negative. *)
Theorem local_add_takes_fresh_id (bookData : FormData.t) (this : BookCatalogue.t) :
  truthyNumber (BookCatalogue.currentEditId this) = false ->
  exists newId,
    saveBookLocally bookData this
    = BookCatalogue.mk (BookCatalogue.books this ++ [withId bookData newId]) None
    /\ 1 <= newId
    /\ (forall book, book ∈ BookCatalogue.books this -> ClientBook.id book < newId)
    /\ (NoDup (ClientBook.id <$> BookCatalogue.books this) ->
        NoDup (ClientBook.id <$>
                 BookCatalogue.books (saveBookLocally bookData this)))
    /\ forall serverBooks : list Book.t,
         Book.id <$> serverBooks = ClientBook.id <$> BookCatalogue.books this ->
         (forall b, b ∈ serverBooks -> 0 <= Book.id b) ->
         generateId serverBooks = newId.
Proof.
  intros Hadd. unfold saveBookLocally. rewrite Hadd.
  set (ids := ClientBook.id <$> BookCatalogue.books this).
  destruct (Math_max0_bounds ids) as [H0 Hmax].
  exists (Math_max0 ids + 1). split_and!; [done|lia| | |].
  - intros book Hb. assert (ClientBook.id book ∈ ids) as Hin
      by (by apply list_elem_of_fmap_2).
    specialize (Hmax _ Hin). lia.
  - intros Hnd. cbn [BookCatalogue.books]. rewrite fmap_app. apply NoDup_app.
    split_and!; [done| |apply NoDup_singleton].
    intros x Hx ->%list_elem_of_singleton. cbn in Hx.
    specialize (Hmax _ Hx). lia.
  - intros serverBooks Hids Hpos. unfold generateId. rewrite Hids. fold ids.
    destruct ids as [|n rest] eqn:E; [done|].
    pose proof (fold_left_max_foldr rest n) as Hfold.
    assert (0 <= n) as Hn.
    { destruct serverBooks as [|b bs]; [done|]. injection Hids as <- _.
      apply Hpos, list_elem_of_here. }
    destruct (fold_max_ge rest n) as [Hge _].
    change (Math_max0 (n :: rest)) with (Z.max n (Math_max0 rest)). lia.
Qed.

(** Property X20. Saving locally with an edit id replaces the first book with
    that id and keeps the list of ids; with no such book nothing changes. *)
Theorem local_edit_replaces_first_match (bookData : FormData.t)
    (this : BookCatalogue.t) (editId : Z) :
  BookCatalogue.currentEditId this = Some editId -> editId <> 0 ->
  let books := BookCatalogue.books this in
  let books' := BookCatalogue.books (saveBookLocally bookData this) in
  BookCatalogue.currentEditId (saveBookLocally bookData this) = None
  /\ ClientBook.id <$> books' = ClientBook.id <$> books
  /\ ((forall book, book ∈ books -> ClientBook.id book <> editId) ->
      books' = books)
  /\ forall book, book ∈ books -> ClientBook.id book = editId ->
       exists i old,
         books !! i = Some old /\ ClientBook.id old = editId
         /\ (forall j b, (j < i)%nat -> books !! j = Some b ->
                         ClientBook.id b <> editId)
         /\ books' = <[i := withId bookData editId]> books.
Proof.
  intros Hedit Hnz books books'. subst books books'.
  unfold saveBookLocally. rewrite Hedit.
  cbn [truthyNumber default from_option id].
  assert (negb (editId =? 0) = true) as -> by (apply negb_true_iff; lia).
  cbn [BookCatalogue.books BookCatalogue.currentEditId].
  split; [done|].
  destruct (findIndex _ _) as [i|] eqn:Hi.
  - destruct (findIndex_lookup _ _ _ Hi) as (old & Hold & Hid & Hfirst).
    apply Z.eqb_eq in Hid. split_and!.
    + rewrite list_fmap_insert. cbn [withId ClientBook.id].
      apply list_insert_id. rewrite list_lookup_fmap, Hold. simpl.
      by rewrite Hid.
    + intros Hnone. exfalso. apply (Hnone old); [|done].
      by eapply list_elem_of_lookup_2.
    + intros _ _ _. exists i, old. split_and!; try done.
      intros j b Hj Hb. apply Z.eqb_neq. by eapply Hfirst.
  - split_and!; [done|done|].
    intros book Hin Hbook. exfalso.
    destruct (findIndex_present (fun b => ClientBook.id b =? editId) _ book Hin)
      as [k Hk]; [by apply Z.eqb_eq|]. congruence.
Qed.

(** Property X21. Deleting locally keeps exactly the books with another id;
    [editBook] on the deleted id then finds nothing. *)
Theorem local_delete_removes_every_match (id : Z) (this : BookCatalogue.t) :
  let this' := deleteBookLocally id this in
  sublist (BookCatalogue.books this') (BookCatalogue.books this)
  /\ (forall book,
        book ∈ BookCatalogue.books this'
        <-> book ∈ BookCatalogue.books this /\ ClientBook.id book <> id)
  /\ ((forall book, book ∈ BookCatalogue.books this -> ClientBook.id book <> id) ->
      this' = this)
  /\ editBook id this' = this'.
Proof.
  intros this'. subst this'. unfold deleteBookLocally.
  cbn [BookCatalogue.books]. split_and!.
  - apply List_filter_sublist.
  - intros book. rewrite List_filter_elem, negb_true_iff, Z.eqb_neq. done.
  - intros Hnone. destruct this as [books edit]. cbn [BookCatalogue.books
      BookCatalogue.currentEditId] in *. f_equal.
    induction books as [|b books IH]; [done|]. cbn [List.filter].
    assert (ClientBook.id b <> id) as Hb by (apply Hnone, list_elem_of_here).
    apply Z.eqb_neq in Hb. rewrite Hb. cbn [negb]. f_equal.
    apply IH. intros x Hx. apply Hnone. by apply list_elem_of_further.
  - unfold editBook. cbn [BookCatalogue.books].
    rewrite find_absent; [done|].
    intros x [_ Hx]%List_filter_elem.
    apply negb_true_iff in Hx. done.
Qed.

Lemma filterThrowing_Return {A} (callback : A -> Outcome bool) (l : list A) :
  (forall x, x ∈ l -> callback x <> Throw) ->
  filterThrowing callback l
  = Return (List.filter
              (fun x => match callback x with Return keep => keep | Throw => false end)
              l).
Proof.
  induction l as [|x l IH]; intros H; cbn [filterThrowing List.filter]; [done|].
  rewrite IH by (intros y Hy; apply H; by apply list_elem_of_further).
  destruct (callback x) as [keep|] eqn:E.
  - by destruct keep.
  - exfalso. by apply (H x (list_elem_of_here _ _)).
Qed.

Lemma filterThrowing_Throw {A} (callback : A -> Outcome bool) (l : list A) (x : A) :
  x ∈ l -> callback x = Throw -> filterThrowing callback l = Throw.
Proof.
  induction 1 as [x l|x y l _ IH]; intros Hx; cbn [filterThrowing].
  - by rewrite Hx.
  - rewrite (IH Hx). by destruct (callback y).
Qed.

Lemma includes_empty s : JsString.includes s "" = true.
Proof. by destruct s. Qed.

Lemma toString_inj (a b : Z) : JsNumber.toString a = JsNumber.toString b -> a = b.
Proof.
  intros H. pose proof (parseInt_toString a) as Ha.
  rewrite H, parseInt_toString in Ha. congruence.
Qed.

Lemma shows_iff searchTerm genreFilter yearFilter book :
  shows searchTerm genreFilter yearFilter book = true
  <-> (JsString.includes (JsString.toLowerCase (ClientBook.title book)) searchTerm = true
       \/ JsString.includes (JsString.toLowerCase (ClientBook.author book)) searchTerm = true
       \/ JsString.includes (JsString.toLowerCase (ClientBook.genre book)) searchTerm = true)
      /\ (genreFilter = "" \/ ClientBook.genre book = genreFilter)
      /\ (yearFilter = ""
          \/ exists y, ClientBook.year book = Some y
                       /\ JsNumber.toString y = yearFilter).
Proof.
  unfold shows, matchesFilters.
  destruct (String.eqb_spec yearFilter "") as [->|Hy].
  - rewrite andb_true_r, andb_true_iff, !orb_true_iff, !String.eqb_eq. tauto.
  - destruct (ClientBook.year book) as [y|].
    + rewrite !andb_true_iff, !orb_true_iff, !String.eqb_eq.
      split.
      * intros [[H1 H2] H3]. split_and!; [tauto|tauto|]. right. eauto.
      * intros (H1 & H2 & [H3|(y' & [= <-] & H3)]); [done|tauto].
    + split; [done|]. intros (_ & _ & [H|(y & H & _)]); done.
Qed.

Section FilterBooksProofs.
Variable localeCompare : string -> string -> Z.

Lemma filterBooks_returns (searchInput genreFilter yearFilter sortBy : string)
    (this : BookCatalogue.t) :
  yearFilter = ""
  \/ (forall book, book ∈ BookCatalogue.books this ->
                   ClientBook.year book <> None) ->
  filterBooks localeCompare searchInput genreFilter yearFilter sortBy this
  = Return (Array_sort (sortsBefore localeCompare sortBy)
              (List.filter
                 (shows (JsString.toLowerCase searchInput) genreFilter yearFilter)
                 (BookCatalogue.books this))).
Proof.
  intros Hok. unfold filterBooks.
  rewrite filterThrowing_Return; [done|].
  intros x Hx. unfold matchesFilters.
  destruct (String.eqb_spec yearFilter "") as [->|Hy]; [done|].
  destruct Hok as [->|Hall]; [done|].
  specialize (Hall x Hx). by destruct (ClientBook.year x).
Qed.

(** Property X22. [filterBooks] throws when a year is selected and a book has
    none; otherwise it shows a permutation of the matching books, ordered by
    year for "year" and "newest", and every book when the controls are empty. *)
Theorem filterBooks_shows_the_matches
    (searchInput genreFilter yearFilter sortBy : string)
    (this : BookCatalogue.t) :
  let books := BookCatalogue.books this in
  let searchTerm := JsString.toLowerCase searchInput in
  (yearFilter <> "" ->
   (exists book, book ∈ books /\ ClientBook.year book = None) ->
   filterBooks localeCompare searchInput genreFilter yearFilter sortBy this
   = Throw)
  /\ (yearFilter = ""
      \/ (forall book, book ∈ books -> ClientBook.year book <> None) ->
      exists shown,
        filterBooks localeCompare searchInput genreFilter yearFilter sortBy this
        = Return shown
        /\ shown ≡ₚ List.filter (shows searchTerm genreFilter yearFilter) books
        /\ (forall book,
              book ∈ shown
              <-> book ∈ books
                  /\ shows searchTerm genreFilter yearFilter book = true)
        /\ (sortBy = "year" ->
            Sorted (fun a b => yearOrZero a <= yearOrZero b) shown)
        /\ (sortBy = "newest" ->
            Sorted (fun a b => yearOrZero b <= yearOrZero a) shown)
        /\ (searchInput = "" -> genreFilter = "" -> yearFilter = "" ->
            shown ≡ₚ books)).
Proof.
  intros books searchTerm. subst books searchTerm. split.
  - intros Hy (book & Hin & Hnone). unfold filterBooks.
    rewrite (filterThrowing_Throw _ _ book Hin); [done|].
    unfold matchesFilters. apply String.eqb_neq in Hy. by rewrite Hy, Hnone.
  - intros Hok. rewrite filterBooks_returns by done.
    eexists. split; [reflexivity|]. split_and!.
    + apply Array_sort_perm.
    + intros book. by rewrite Array_sort_perm, List_filter_elem.
    + intros ->. eapply Sorted_weaken; [|apply Array_sort_Sorted].
      * intros a b. cbn. lia.
      * intros a b. cbn. lia.
    + intros ->. eapply Sorted_weaken; [|apply Array_sort_Sorted].
      * intros a b. cbn. lia.
      * intros a b. cbn. lia.
    + intros -> -> ->. rewrite Array_sort_perm.
      assert (forall l : list ClientBook.t,
                 List.filter (shows (JsString.toLowerCase "") "" "") l = l) as ->;
        [|done].
      induction l as [|b l IH]; [done|]. cbn [List.filter].
      assert (shows (JsString.toLowerCase "") "" "" b = true) as ->.
      { apply shows_iff. split_and!; [left; apply includes_empty|by left..]. }
      by rewrite IH.
Qed.

(** Property X23. The offered years are the distinct non-zero years, newest
    first, and each one selects at least one book, all of that year. *)
Theorem year_options_select_books (books : list ClientBook.t) :
  NoDup (yearOptions books)
  /\ Sorted (fun a b => b <= a) (yearOptions books)
  /\ (forall y, y ∈ yearOptions books
                <-> y <> 0 /\ exists book, book ∈ books
                                           /\ ClientBook.year book = Some y)
  /\ forall y sortBy,
       y ∈ yearOptions books ->
       (forall book, book ∈ books -> ClientBook.year book <> None) ->
       exists shown,
         filterBooks localeCompare "" "" (JsNumber.toString y) sortBy
                     (BookCatalogue.mk books None)
         = Return shown
         /\ shown <> []
         /\ forall book, book ∈ shown -> ClientBook.year book = Some y.
Proof.
  assert (forall y, y ∈ yearOptions books
                    <-> y <> 0 /\ exists book, book ∈ books
                                               /\ ClientBook.year book = Some y)
    as Hmem.
  { intros y. unfold yearOptions.
    rewrite Array_sort_perm, elem_of_elements, elem_of_list_to_set,
      list_elem_of_omap.
    split.
    - intros (book & Hin & Hy). unfold orNull, truthyNumber in Hy.
      destruct (ClientBook.year book) as [n|] eqn:E; [|done].
      destruct (n =? 0) eqn:En; [done|]. injection Hy as <-.
      split; [lia|eauto].
    - intros (Hy & book & Hin & E). exists book. split; [done|].
      unfold orNull, truthyNumber. rewrite E.
      assert ((y =? 0) = false) as -> by lia. done. }
  split_and!; [| |exact Hmem|].
  - unfold yearOptions. rewrite Array_sort_perm. apply NoDup_elements.
  - eapply Sorted_weaken; [|apply Array_sort_Sorted].
    + intros a b. cbn. lia.
    + intros a b. cbn. lia.
  - intros y sortBy Hy Hall.
    apply Hmem in Hy as (Hnz & book & Hin & Hbook).
    assert (JsNumber.toString y <> "") as Hne.
    { intros E. pose proof (parseInt_toString y) as H. by rewrite E in H. }
    rewrite filterBooks_returns by (by right).
    eexists. split; [reflexivity|].
    assert (forall b,
               b ∈ Array_sort (sortsBefore localeCompare sortBy)
                     (List.filter (shows (JsString.toLowerCase "") ""
                                         (JsNumber.toString y)) books)
               <-> b ∈ books
                   /\ shows (JsString.toLowerCase "") "" (JsNumber.toString y) b
                      = true) as Hshown
      by (intros b; by rewrite Array_sort_perm, List_filter_elem).
    cbn [BookCatalogue.books]. split.
    + intros E.
      assert (book ∈ Array_sort (sortsBefore localeCompare sortBy)
                       (List.filter (shows (JsString.toLowerCase "") ""
                                           (JsNumber.toString y)) books)) as Hb;
        [|rewrite E in Hb; by apply elem_of_nil in Hb].
      apply Hshown. split; [done|]. apply shows_iff.
      split_and!; [left; apply includes_empty|by left|right; eauto].
    + intros b [_ Hb]%Hshown. apply shows_iff in Hb as (_ & _ & [E|(y' & Hy' & E)]);
        [done|]. apply toString_inj in E. congruence.
Qed.
End FilterBooksProofs.

(** * The further properties at concrete inputs *)

(** Property X1 at a concrete input. *)
Lemma generateId_next_after_largest_witness :
  exists top, top ∈ [animalFarm] /\ generateId [animalFarm] = Book.id top + 1.
Proof.
  destruct (generateId_next_after_largest [animalFarm]) as (_ & _ & H).
  destruct (H ltac:(discriminate)) as (top & Hin & _ & Hgen).
  exists top. split; [exact Hin | exact Hgen].
Defined.

(** Property X2 at a concrete input. *)
Lemma ids_stay_unique_witness :
  uniqueIds (stored (snd (post_api_books (candidate "Dune" "Frank Herbert") oneBook))).
Proof.
  apply (ids_stay_unique oneBook). apply NoDup_singleton.
Defined.

(** Property X4 at a concrete input. *)
Lemma delete_then_fetch_witness :
  exists w',
    delete_api_books_id "1" oneBook
    = (Return (mkResponse 200 (JDeleted "Book deleted successfully" animalFarm)), w')
    /\ get_api_books_id "1" w'
       = (Return (mkResponse 404 (JError "Book not found")), w').
Proof.
  destruct (delete_then_fetch oneBook "1" 1 eq_refl) as [_ H].
  destruct (H animalFarm) as (i & w' & Hdel & _ & _ & _ & Hget & _).
  - apply list_elem_of_here.
  - reflexivity.
  - apply NoDup_singleton.
  - reflexivity.
  - exists w'. split; [exact Hdel | exact Hget].
Defined.

(** Property X5 at a concrete input. *)
Lemma deleted_top_id_is_reused_witness :
  exists w', generateId (stored w') = 2.
Proof.
  destruct (deleted_top_id_is_reused twoBooks "2"
              (Book.mk 2 "1984" "George Orwell" "Science Fiction" (Some 1949) "" "" 6 6)
              animalFarm eq_refl) as (w' & _ & Hgen).
  - unfold uniqueIds. cbn. apply NoDup_cons. split; [|apply NoDup_singleton].
    intros H%list_elem_of_singleton. discriminate H.
  - apply list_elem_of_further, list_elem_of_here.
  - apply list_elem_of_here.
  - reflexivity.
  - intros b [->|[->|H]%elem_of_cons]%elem_of_cons; cbn; [lia|lia|].
    by apply elem_of_nil in H.
  - reflexivity.
  - exists w'. exact Hgen.
Defined.

(** Property X6 at a concrete input. *)
Lemma update_keeping_title_and_author_witness :
  exists w',
    fst (put_api_books_id "1" (candidate "ANIMAL FARM" "george orwell") oneBook)
    = Return (mkResponse 200
                (JBook (updatedBook animalFarm
                          (candidate "ANIMAL FARM" "george orwell") (noon 1%nat))))
    /\ length (stored w') = 1%nat.
Proof.
  destruct (update_keeping_title_and_author oneBook "1"
              (candidate "ANIMAL FARM" "george orwell") 0 animalFarm
              eq_refl eq_refl eq_refl eq_refl (uniquePairs_one animalFarm) eq_refl)
    as (w' & Hput & Hstored).
  exists w'. split; [by rewrite Hput | by rewrite Hstored].
Defined.

(** Property X7 at a concrete input. *)
Lemma create_on_unreadable_file_witness :
  exists book w',
    post_api_books (candidate "Dune" "Frank Herbert") corruptStore
    = (Return (mkResponse 201 (JBook book)), w')
    /\ Book.id book = 1.
Proof.
  destruct (create_on_unreadable_file corruptStore (candidate "Dune" "Frank Herbert")
              (or_intror eq_refl) eq_refl eq_refl) as (book & w' & Hpost & Hid & _).
  exists book, w'. split; [exact Hpost | exact Hid].
Defined.

(** Property X8 at a concrete input. *)
Lemma stored_records_stay_trimmed_witness :
  Forall wellFormed
    (stored (snd (post_api_books (candidate " Dune " "Frank Herbert") oneBook))).
Proof.
  apply (stored_records_stay_trimmed oneBook).
  constructor; [|constructor].
  split; split; (discriminate || reflexivity).
Defined.

(** Property X9 at a concrete input. *)
Lemma pairs_stay_unique_when_sent_trimmed_witness :
  uniquePairs
    (stored (snd (post_api_books (candidate "Dune" "Frank Herbert") oneBook))).
Proof.
  apply (pairs_stay_unique_when_sent_trimmed oneBook).
  - apply NoDup_singleton.
  - apply uniquePairs_one.
  - split; reflexivity.
Defined.

(** Property X10 at a concrete input. *)
Lemma create_rejects_match_witness :
  exists r w',
    post_api_books (candidate "ANIMAL FARM" "george orwell") oneBook
    = (Return r, w')
    /\ status r = 400 /\ file w' = file oneBook
    /\ written w' = written oneBook.
Proof.
  apply (create_rejects_match oneBook (candidate "ANIMAL FARM" "george orwell")
           animalFarm).
  - apply list_elem_of_here.
  - reflexivity.
Defined.

(** Property X11 at a concrete input. *)
Lemma bulk_writes_once_witness :
  exists results w',
    post_api_books_bulk (Some [candidate "Dune" "Frank Herbert"]) oneBook
    = (Return (mkResponse 201 (JResults results)), w')
    /\ length (written w') = 1%nat.
Proof.
  destruct (bulk_writes_once [candidate "Dune" "Frank Herbert"] oneBook)
    as (results & r & w' & Hrun & _ & _ & Hcase).
  assert (Hsame := Hrun). vm_compute in Hsame.
  injection Hsame as Hr Hw.
  exists results, w'.
  destruct (Results.success results) eqn:E.
  - destruct Hcase as [Hwritten ->]. exfalso. 
    rewrite <- Hw in Hwritten. discriminate Hwritten.
  - destruct Hcase as [Hwritten Hok]. rewrite (Hok eq_refl) in Hrun.
    split; [exact Hrun|]. rewrite Hwritten. reflexivity.
Defined.

(** Property X12 at a concrete input. *)
Lemma filters_combine_with_and_witness :
  animalFarm ∈ applyFilters noNumber
                 (Query.mk (Some "ORWELL") (Some "Satire") None None None None)
                 (stored oneBook).
Proof.
  destruct (filters_combine_with_and noNumber
              (Query.mk (Some "ORWELL") (Some "Satire") None None None None)
              oneBook) as (_ & _ & Hmem).
  apply Hmem. split; [apply list_elem_of_here|].
  split; [reflexivity|]. split; [reflexivity|].
  split; intros H; discriminate H.
Defined.

(** Property X13 at a concrete input. *)
Lemma consecutive_pages_concatenate_witness :
  paginate (Query.mk None None None None (Some "1") None) (stored twoBooks)
  ++ paginate (Query.mk None None None None (Some "1") (Some "1")) (stored twoBooks)
  = paginate (Query.mk None None None None (Some "2") (Some "0")) (stored twoBooks).
Proof.
  apply (consecutive_pages_concatenate _ _ _ _ 0 1 1);
    (reflexivity || lia).
Defined.

(** Property X14 at a concrete input. *)
Lemma pagination_edge_cases_witness :
  paginate (Query.mk None None None None (Some "abc") None) (stored twoBooks) = []
  /\ paginate (Query.mk None None None None (Some "-1") None) (stored twoBooks)
     = [animalFarm].
Proof.
  split.
  - apply (pagination_edge_cases
             (Query.mk None None None None (Some "abc") None) (stored twoBooks)
             eq_refl).
    reflexivity.
  - apply (proj2 (pagination_edge_cases
                    (Query.mk None None None None (Some "-1") None)
                    (stored twoBooks) eq_refl) 1);
      (reflexivity || lia).
Defined.

(** Property X15 at a concrete input. *)
Lemma recently_added_are_the_newest_witness :
  exists stats,
    get_api_stats twoBooks = (Return (mkResponse 200 (JStats stats)), twoBooks)
    /\ length (Stats.recentlyAdded stats) = 2%nat.
Proof.
  destruct (recently_added_are_the_newest twoBooks)
    as (stats & older & Hget & _ & Hlen & _).
  exists stats. split; [exact Hget | exact Hlen].
Defined.

(** Property X16 at a concrete input. *)
Lemma statistics_count_the_store_witness :
  exists stats,
    get_api_stats twoBooks = (Return (mkResponse 200 (JStats stats)), twoBooks)
    /\ Stats.totalAuthors stats = 1%nat.
Proof.
  destruct (statistics_count_the_store twoBooks)
    as (stats & Hget & _ & Hauthors & _).
  exists stats. split; [exact Hget|].
  apply (Hauthors ["George Orwell"]).
  - apply NoDup_singleton.
  - intros a. rewrite list_elem_of_singleton. split.
    + intros ->. exists animalFarm. split; [apply list_elem_of_here | reflexivity].
    + intros (book & [->|[->|H]%elem_of_cons]%elem_of_cons & <-);
        [reflexivity | reflexivity | by apply elem_of_nil in H].
Defined.

(** Property X17 at a concrete input. *)
Lemma genres_and_authors_sorted_distinct_witness :
  exists genres,
    get_api_genres twoBooks = (Return (mkResponse 200 (JStrings genres)), twoBooks)
    /\ "Satire" ∈ genres.
Proof.
  destruct (genres_and_authors_sorted_distinct twoBooks)
    as (genres & authors & Hget & _ & _ & _ & _ & _ & Hmem & _).
  exists genres. split; [exact Hget|].
  apply Hmem. exists animalFarm. split; [apply list_elem_of_here | reflexivity].
Defined.

(** Property X19 at a concrete input. *)
Lemma local_add_takes_fresh_id_witness :
  exists newId,
    saveBookLocally emmaForm smallPage
    = BookCatalogue.mk (BookCatalogue.books smallPage ++ [withId emmaForm newId])
                       None
    /\ 1 <= newId.
Proof.
  destruct (local_add_takes_fresh_id emmaForm smallPage eq_refl)
    as (newId & Hsave & Hpos & _).
  exists newId. split; [exact Hsave | exact Hpos].
Defined.

(** Property X20 at a concrete input. *)
Lemma local_edit_replaces_first_match_witness :
  ClientBook.id <$> BookCatalogue.books
                      (saveBookLocally emmaForm
                         (BookCatalogue.mk (BookCatalogue.books smallPage) (Some 2)))
  = [1; 2].
Proof.
  apply (local_edit_replaces_first_match emmaForm
           (BookCatalogue.mk (BookCatalogue.books smallPage) (Some 2)) 2 eq_refl).
  discriminate.
Defined.

(** Property X21 at a concrete input. *)
Lemma local_delete_removes_every_match_witness :
  deleteBookLocally 7 smallPage = smallPage.
Proof.
  destruct (local_delete_removes_every_match 7 smallPage) as (_ & _ & Habsent & _).
  apply Habsent.
  intros book [->|[->|H]%elem_of_cons]%elem_of_cons;
    [discriminate | discriminate | by apply elem_of_nil in H].
Defined.

(** Property X22 at a concrete input. *)
Lemma filterBooks_shows_the_matches_witness :
  filterBooks flatCollation "" "" "1949" "year" smallPage = Throw.
Proof.
  apply (filterBooks_shows_the_matches flatCollation "" "" "1949" "year" smallPage).
  - discriminate.
  - exists (ClientBook.mk 2 "Dune" "Frank Herbert" "Science Fiction" None "" "").
    split; [apply list_elem_of_further, list_elem_of_here | reflexivity].
Defined.

(** Property X23 at a concrete input. *)
Lemma year_options_select_books_witness :
  1949 ∈ yearOptions (BookCatalogue.books smallPage).
Proof.
  apply (year_options_select_books flatCollation (BookCatalogue.books smallPage)).
  split; [discriminate|].
  exists (ClientBook.mk 1 "1984" "George Orwell" "Science Fiction" (Some 1949) "" "").
  split; [apply list_elem_of_here | reflexivity].
Defined.
